(** * pleiades.current_sets: weighted current filament sets

    A shallow embedding of [pleiades/current_sets.py]: the abstract base
    class [CurrentFilamentSet] and its three concrete shapes
    [ArbitraryPoints], [RectangularCoil] and [MagnetRing].

    Numbers.  The program computes in binary64.  The geometry (grids,
    translations, rotations, sines and cosines) is embedded over the real
    numbers [R]: float64 arithmetic is idealised as exact, so a property
    the program has "up to rounding" is stated here as an equation.  The
    base class, which only adds, multiplies and divides, is embedded over
    an arbitrary carrier and read twice: over [R], and over IEEE-754
    binary64 ([SpecFloat]), where division by zero is defined.

    Objects.  A Python instance is a record of its attributes; a property
    is a function of the record; a setter returns the updated record.  A
    property that can raise returns a [result].  The records keep values;
    where the code depends on the Python object that holds a value (a
    list or an array, a float or a numpy scalar), the function takes the
    kind of object as an argument. *)

From Stdlib Require Import String.
From Stdlib Require Import Reals Lra Lia ZArith List Bool.
From Stdlib Require Import Floats.SpecFloat.
Import ListNotations.

Set Implicit Arguments.

(** ** Python exceptions *)

Inductive exn : Type :=
| NotImplementedError
| ValueError
| TypeError
| IndexError
| AttributeError.

Inductive result (A : Type) : Type :=
| Ok (a : A)
| Raise (e : exn).

Arguments Ok {A} a.
Arguments Raise {A} e.

Definition bind {A B : Type} (m : result A) (k : A -> result B) : result B :=
  match m with
  | Ok a => k a
  | Raise e => Raise e
  end.

Notation "x <- m ;; k" := (bind m (fun x => k))
  (at level 61, m at next level, right associativity).

Definition raises {A : Type} (m : result A) : Prop :=
  exists e, m = Raise e.

(** ** Scalars *)

(** The arithmetic the base class uses.  numpy scalars divide without
    raising: a zero divisor gives a warning and an IEEE result. *)
Class Arith (F : Type) : Type := {
  zero : F;
  one : F;
  add : F -> F -> F;
  mul : F -> F -> F;
  div : F -> F -> F;
  neg : F -> F
}.

#[global] Instance R_Arith : Arith R := {
  zero := 0%R;
  one := 1%R;
  add := Rplus;
  mul := Rmult;
  div := Rdiv;
  neg := Ropp
}.

(** binary64: 53 bits of precision, exponents below 1024. *)
Definition binary64 : Type := spec_float.

#[global] Instance binary64_Arith : Arith binary64 := {
  zero := S754_zero false;
  one := S754_finite false 4503599627370496 (-52);
  add := SFadd 53 1024;
  mul := SFmul 53 1024;
  div := SFdiv 53 1024;
  neg := SFopp
}.

Definition non_finite (x : binary64) : bool :=
  match x with
  | S754_infinity _ | S754_nan => true
  | S754_zero _ | S754_finite _ _ _ => false
  end.

Definition point : Type := (R * R)%type.

(** An array of (R, Z) rows.  [np.array] of an empty Python list has shape
    (0,), not (0, 2): it has no second axis. *)
Inductive ndarray : Type :=
| Arr1_empty
| ArrN2 (rows : list point).

Definition rows_of (a : ndarray) : list point :=
  match a with
  | Arr1_empty => []
  | ArrN2 rows => rows
  end.

(** ** The objects that hold the numbers

    The records of the classes keep the values of the current and of the
    weights.  Python also has the objects that hold them, and the product
    [current*weights] of [_markers] depends on which they are.
    [__init__] and the [current] setter store the object they are given:
    a Python float such as the default [1.] or a numpy scalar, such as
    the quotient by [np.sum] that the [total_current] setter assigns; a
    Python list or an array.  [np.ones], for weights that are not given,
    and the [np.asarray] of the [weights] setter always leave an array. *)
Inductive scalar_kind : Type :=
| PyFloat
| NpFloat64.

Inductive sequence_kind : Type :=
| PyList
| NdArray.

(** [scalar * sequence]: numpy multiplies entry by entry as soon as one
    operand is its own; a Python float times a Python list is a
    TypeError (a sequence is only repeated, and only by an int). *)
Definition scalar_times (ck : scalar_kind) (wk : sequence_kind) (c : R)
  (w : list R) : result (list R) :=
  match ck, wk with
  | PyFloat, PyList => Raise TypeError
  | _, _ => Ok (map (fun wi => (c * wi)%R) w)
  end.

(** ** The numpy functions the module calls *)

Module np.

Section Generic.
Context {F : Type} `{Arith F}.

(** [np.ones(n)]; a negative dimension is a ValueError. *)
Definition ones (n : Z) : result (list F) :=
  if (n <? 0)%Z then Raise ValueError else Ok (repeat one (Z.to_nat n)).

(** [np.sum(a)].  numpy adds in blocks; a left fold gives the same sum
    in exact arithmetic, and in binary64 whenever every partial sum is
    exactly representable. *)
Definition sum (a : list F) : F := fold_left add a zero.
End Generic.

Local Open Scope R_scope.

(** [y[-1] = stop] *)
Fixpoint set_last (y : list R) (stop : R) : list R :=
  match y with
  | [] => []
  | [_] => [stop]
  | x :: tl => x :: set_last tl stop
  end.

(** [np.linspace(start, stop, num)] with the default [endpoint=True]:
    [arange(num) * step + start] with [step = (stop - start)/(num - 1)],
    the last sample overwritten by [stop]. *)
Definition linspace (start stop : R) (num : Z) : result (list R) :=
  if (num <? 0)%Z then Raise ValueError
  else
    let div := (num - 1)%Z in
    let delta := stop - start in
    let y := map (fun i : nat =>
                    if (0 <? div)%Z then INR i * (delta / IZR div) + start
                    else INR i * delta + start)
                 (seq 0 (Z.to_nat num)) in
    Ok (if (1 <? num)%Z then set_last y stop else y).

(** [np.isclose(a, b, rtol, atol)]: [|a - b| <= atol + rtol*|b|]. *)
Definition isclose (a b rtol atol : R) : bool :=
  if Rle_dec (Rabs (a - b)) (atol + rtol * Rabs b) then true else false.

Definition default_rtol : R := 1 / 100000.
Definition default_atol : R := 1 / 100000000.

(** [np.array([(ri, zi) for ...])] *)
Definition array (l : list point) : ndarray :=
  match l with
  | [] => Arr1_empty
  | _ => ArrN2 l
  end.

(** [a[i]] along the first axis, a negative index counting from the end. *)
Definition item {A : Type} (l : list A) (i : Z) : result A :=
  let n := Z.of_nat (length l) in
  let k := if (i <? 0)%Z then (i + n)%Z else i in
  if ((k <? 0) || (n <=? k))%Z then Raise IndexError
  else match nth_error l (Z.to_nat k) with
       | Some x => Ok x
       | None => Raise IndexError
       end.

Fixpoint take_rows (l : list point) (idx : list Z) : result (list point) :=
  match idx with
  | [] => Ok []
  | i :: tl => x <- item l i ;; xs <- take_rows l tl ;; Ok (x :: xs)
  end.

(** [a[idx, :]]: a shape-(0,) array has no second axis to index. *)
Definition index_rows (a : ndarray) (idx : list Z) : result (list point) :=
  match a with
  | Arr1_empty => Raise IndexError
  | ArrN2 rows => take_rows rows idx
  end.

(** Assigning [src] to a slice of [k] entries: equal lengths, or a single
    value broadcast; anything else is a ValueError. *)
Definition broadcast_to {A : Type} (src : list A) (k : nat) : result (list A) :=
  if (length src =? k)%nat then Ok src
  else match src with
       | [x] => Ok (repeat x k)
       | _ => Raise ValueError
       end.

(** [np.mean(a, axis=0)]: a scalar for a 1-D array, a pair of column means
    for an N x 2 array. *)
Inductive mean_value : Type :=
| Scalar (m : R)
| Pair (mr mz : R).

Definition mean_axis0 (a : ndarray) : mean_value :=
  match a with
  | Arr1_empty => Scalar (0 / 0)
  | ArrN2 rows =>
      let n := INR (length rows) in
      Pair (sum (map fst rows) / n) (sum (map snd rows) / n)
  end.

(** [r0, z0 = value]: a numpy scalar is not iterable. *)
Definition unpack2 (v : mean_value) : result point :=
  match v with
  | Scalar _ => Raise TypeError
  | Pair a b => Ok (a, b)
  end.

End np.

Open Scope R_scope.

(** ** Plane vectors and the rotation matrix *)

Definition add_pt (p q : point) : point := (fst p + fst q, snd p + snd q).
Definition sub_pt (p q : point) : point := (fst p - fst q, snd p - snd q).
Definition neg_pt (p : point) : point := (- fst p, - snd p).

(** [np.array([[c, -s], [s, c]])] for an angle in degrees:
    [angle = math.pi*angle / 180; c, s = np.cos(angle), np.sin(angle)]. *)
Definition rotation (angle : R) : point * point :=
  let angle := PI * angle / 180 in
  let c := cos angle in
  let s := sin angle in
  ((c, - s), (s, c)).

(** [p @ m] for a row vector [p] and a 2 x 2 matrix [m]. *)
Definition matmul (p : point) (m : point * point) : point :=
  (fst p * fst (fst m) + snd p * fst (snd m),
   fst p * snd (fst m) + snd p * snd (snd m)).

(** [(p - pivot) @ rotation + pivot] *)
Definition rotate_about (angle : R) (pivot p : point) : point :=
  add_pt (matmul (sub_pt p pivot) (rotation angle)) pivot.

Definition dist (p q : point) : R :=
  sqrt ((fst p - fst q) * (fst p - fst q) + (snd p - snd q) * (snd p - snd q)).

(** ** pleiades.transforms *)

Module transforms.

(** Modelled from the spec: [pleiades.transforms.rotate], whose file
    (pleiades/transforms.py) is not among the sources.  It "rotates each
    2-D point about [pivot] by [angle_degrees] measured from the z-axis,
    using the standard 2-D rotation matrix with cosine/sine of the angle
    converted to radians", and returns an array of the same shape: the
    matrix and the product are the ones [rotate] of the three classes
    writes out. *)
Definition rotate_rows (pts : list point) (angle : R) (pivot : point)
  : list point :=
  map (rotate_about angle pivot) pts.

(** Modelled from the spec: [pleiades.transforms.rotate] on an array, the
    rows rotated as above.  A shape-(0,) array holds no 2-D points:
    subtracting the two-entry pivot from it does not broadcast. *)
Definition rotate (pts : ndarray) (angle : R) (pivot : point)
  : result ndarray :=
  match pts with
  | Arr1_empty => Raise ValueError
  | ArrN2 rows => Ok (ArrN2 (rotate_rows rows angle pivot))
  end.

End transforms.

(** ** pleiades.checkvalue: the invalidation protocol *)

(** An object carrying the flag [_uptodate]. *)
Class HasUptodate (S : Type) : Type := {
  get__uptodate : S -> bool;
  set__uptodate : S -> bool -> S
}.

Module cv.

(** Modelled from the spec: the decorator [cv.flag_greens_on_set], whose
    file (pleiades/checkvalue.py) is not among the sources.  A decorated
    setter must "as a side effect, mark a process-local Green's-function
    data is stale flag on the instance"; the flag is the attribute
    [_uptodate] that [ArbitraryPoints.translate] assigns [False]. *)
Definition flag_greens_on_set {S A : Type} `{HasUptodate S}
  (func : S -> A -> S) (self : S) (value : A) : S :=
  func (set__uptodate self false) value.

End cv.

(** ** Styling options and matplotlib patches *)

Definition kwargs : Type := list (string * string).

Module patches.

Inductive code : Type := MOVETO | LINETO | CLOSEPOLY.

Record Path : Type := mkPath {
  vertices : list point;
  codes : list code
}.

Record PathPatch : Type := mkPathPatch {
  path : Path;
  props : kwargs
}.

(** [Path(vertices, codes)]: one code per vertex. *)
Definition new_Path (verts : list point) (cs : list code) : result Path :=
  if (length verts =? length cs)%nat then Ok (mkPath verts cs)
  else Raise ValueError.

(** Unpacking a dictionary into keyword arguments: it must be a mapping. *)
Definition unpack_kwargs (d : option kwargs) : result kwargs :=
  match d with
  | None => Raise TypeError
  | Some kw => Ok kw
  end.

End patches.

(** ** class CurrentFilamentSet *)

Module CurrentFilamentSet.

Record t (F : Type) : Type := mk {
  _current : F;
  _weights : list F;
  patch_kw : option kwargs;
  _uptodate : bool
}.

Arguments mk {F} _ _ _ _.

Section Base.
Context {F : Type} `{Arith F}.

#[global] Instance uptodate : HasUptodate (t F) := {
  get__uptodate := fun self => _uptodate self;
  set__uptodate := fun self b =>
    mk (_current self) (_weights self) (patch_kw self) b
}.

(** [__init__(self, current=1., weights=None, patch_kw=None, ...)].
    [npts] is the subclass's property, read only when no weights are
    given; [fields_uptodate] is the flag as [FieldsOperator.__init__]
    (pleiades/fields.py, not among the sources) leaves it, reached last
    through the cooperative [super().__init__] call. *)
Definition __init__ (npts : result Z) (current : F)
  (weights : option (list F)) (kw : option kwargs)
  (fields_uptodate : bool) : result (t F) :=
  w <- match weights with
       | None => n <- npts ;; np.ones n
       | Some w => Ok w
       end ;;
  Ok (mk current w kw fields_uptodate).

Definition current (self : t F) : F := _current self.

Definition weights (self : t F) : list F := _weights self.

Definition total_current (self : t F) : F :=
  mul (current self) (np.sum (weights self)).

Definition set_current (self : t F) (current : F) : t F :=
  mk current (_weights self) (patch_kw self) (_uptodate self).

(** [self._weights = np.asarray(weights)], decorated. *)
Definition set_weights : t F -> list F -> t F :=
  cv.flag_greens_on_set
    (fun self weights =>
       mk (_current self) weights (patch_kw self) (_uptodate self)).

Definition set_total_current (self : t F) (total_current : F) : t F :=
  set_current self (div total_current (np.sum (weights self))).

(** [patch_kw] is a plain attribute. *)
Definition set_patch_kw (self : t F) (kw : option kwargs) : t F :=
  mk (_current self) (_weights self) kw (_uptodate self).

End Base.

End CurrentFilamentSet.

(** ** class ArbitraryPoints *)

Module ArbitraryPoints.

Record t : Type := mk {
  base : CurrentFilamentSet.t R;
  _rz_pts : list point;
  _angle : R
}.

#[global] Instance uptodate : HasUptodate t := {
  get__uptodate := fun self => get__uptodate (base self);
  set__uptodate := fun self b =>
    mk (set__uptodate (base self) b) (_rz_pts self) (_angle self)
}.

Definition rz_pts (self : t) : ndarray := ArrN2 (_rz_pts self).

Definition npts (self : t) : Z := Z.of_nat (length (rows_of (rz_pts self))).

Definition patch (self : t) : option patches.PathPatch := None.

(** [__init__(self, rz_pts, ...)]: the points, then the base class. *)
Definition __init__ (rz_pts : list point) (current : R)
  (weights : option (list R)) (kw : option kwargs) (fields_uptodate : bool)
  : result t :=
  b <- CurrentFilamentSet.__init__ (Ok (Z.of_nat (length rz_pts)))
         current weights kw fields_uptodate ;;
  Ok (mk b rz_pts 0).

Definition translate (self : t) (vector : point) : t :=
  let self := mk (base self)
                 (map (fun p => add_pt p vector) (_rz_pts self))
                 (_angle self) in
  set__uptodate self false.

Definition rotate (self : t) (angle : R) (pivot : point) : t :=
  let self := mk (base self) (_rz_pts self) (_angle self + angle) in
  let rotation := rotation angle in
  let self := mk (base self)
                 (map (fun p => add_pt (matmul (sub_pt p pivot) rotation) pivot)
                      (rows_of (rz_pts self)))
                 (_angle self) in
  set__uptodate self false.

End ArbitraryPoints.

(** ** class RectangularCoil *)

Module RectangularCoil.

Record t : Type := mk {
  base : CurrentFilamentSet.t R;
  _r0 : R;
  _z0 : R;
  _nr : Z;
  _nz : Z;
  _dr : R;
  _dz : R;
  _angle : R
}.

#[global] Instance uptodate : HasUptodate t := {
  get__uptodate := fun self => get__uptodate (base self);
  set__uptodate := fun self b =>
    mk (set__uptodate (base self) b) (_r0 self) (_z0 self) (_nr self)
       (_nz self) (_dr self) (_dz self) (_angle self)
}.

Definition _codes : list patches.code :=
  [patches.MOVETO; patches.LINETO; patches.LINETO; patches.LINETO;
   patches.CLOSEPOLY].

(** [__init__(self, r0=1., z0=0., nr=1, nz=1, dr=0.1, dz=0.1, angle=0., ...)] *)
Definition __init__ (r0 z0 : R) (nr nz : Z) (dr dz angle : R) (current : R)
  (weights : option (list R)) (kw : option kwargs) (fields_uptodate : bool)
  : result t :=
  b <- CurrentFilamentSet.__init__ (Ok (nr * nz)%Z)
         current weights kw fields_uptodate ;;
  Ok (mk b r0 z0 nr nz dr dz angle).

Definition r0 (self : t) : R := _r0 self.
Definition z0 (self : t) : R := _z0 self.
Definition centroid (self : t) : point := (r0 self, z0 self).
Definition nr (self : t) : Z := _nr self.
Definition nz (self : t) : Z := _nz self.
Definition dr (self : t) : R := _dr self.
Definition dz (self : t) : R := _dz self.
Definition angle (self : t) : R := _angle self.

Definition npts (self : t) : Z := (nr self * nz self)%Z.

Definition rz_pts (self : t) : result ndarray :=
  let r0 := fst (centroid self) in
  let z0 := snd (centroid self) in
  let nr := nr self in
  let dr := dr self in
  let nz := nz self in
  let dz := dz self in
  let rl := r0 - dr * IZR (nr - 1) / 2 in
  let ru := r0 + dr * IZR (nr - 1) / 2 in
  let zl := z0 - dz * IZR (nz - 1) / 2 in
  let zu := z0 + dz * IZR (nz - 1) / 2 in
  r <- np.linspace rl ru nr ;;
  z <- np.linspace zl zu nz ;;
  let rz_pts := np.array (flat_map (fun ri => map (fun zi => (ri, zi)) z) r) in
  if np.isclose (angle self) 0 np.default_rtol np.default_atol then Ok rz_pts
  else transforms.rotate rz_pts (angle self) (r0, z0).

Definition _verts (self : t) : result (list point) :=
  let nr := nr self in
  let dr := dr self in
  let nz := nz self in
  let dz := dz self in
  let idx := [0; nz - 1; nr * nz - 1; (nr - 1) * nz; 0]%Z in
  pts <- rz_pts self ;;
  verts <- np.index_rows pts idx ;;
  let hdr := dr / 2 in
  let hdz := dz / 2 in
  let dverts := [(- hdr, - hdz); (- hdr, hdz); (hdr, hdz); (hdr, - hdz);
                 (- hdr, - hdz)] in
  let dverts :=
    if negb (np.isclose (angle self) 0 np.default_rtol np.default_atol)
    then transforms.rotate_rows dverts (angle self) (0, 0)
    else dverts in
  Ok (map (fun vd => add_pt (fst vd) (snd vd)) (combine verts dverts)).

Definition patch (self : t) : result patches.PathPatch :=
  v <- _verts self ;;
  p <- patches.new_Path v _codes ;;
  Ok (patches.mkPathPatch p []).

Definition area (self : t) : R :=
  IZR (nr self) * dr self * IZR (nz self) * dz self.

Definition current_density (self : t) : R :=
  CurrentFilamentSet.total_current (base self) / area self.

Definition set_r0 : t -> R -> t :=
  cv.flag_greens_on_set (fun self r0 =>
    mk (base self) r0 (_z0 self) (_nr self) (_nz self) (_dr self) (_dz self)
       (_angle self)).

Definition set_z0 : t -> R -> t :=
  cv.flag_greens_on_set (fun self z0 =>
    mk (base self) (_r0 self) z0 (_nr self) (_nz self) (_dr self) (_dz self)
       (_angle self)).

Definition set_centroid : t -> point -> t :=
  cv.flag_greens_on_set (fun self centroid =>
    mk (base self) (fst centroid) (snd centroid) (_nr self) (_nz self)
       (_dr self) (_dz self) (_angle self)).

Definition set_nr : t -> Z -> t :=
  cv.flag_greens_on_set (fun self nr =>
    mk (base self) (_r0 self) (_z0 self) nr (_nz self) (_dr self) (_dz self)
       (_angle self)).

Definition set_nz : t -> Z -> t :=
  cv.flag_greens_on_set (fun self nz =>
    mk (base self) (_r0 self) (_z0 self) (_nr self) nz (_dr self) (_dz self)
       (_angle self)).

Definition set_dr : t -> R -> t :=
  cv.flag_greens_on_set (fun self dr =>
    mk (base self) (_r0 self) (_z0 self) (_nr self) (_nz self) dr (_dz self)
       (_angle self)).

Definition set_dz : t -> R -> t :=
  cv.flag_greens_on_set (fun self dz =>
    mk (base self) (_r0 self) (_z0 self) (_nr self) (_nz self) (_dr self) dz
       (_angle self)).

Definition set_angle : t -> R -> t :=
  cv.flag_greens_on_set (fun self angle =>
    mk (base self) (_r0 self) (_z0 self) (_nr self) (_nz self) (_dr self)
       (_dz self) angle).

(** [self.centroid += np.array(vector)]: read, add, assign. *)
Definition translate (self : t) (vector : point) : t :=
  set_centroid self (add_pt (centroid self) vector).

Definition rotate (self : t) (angle : R) (pivot : point) : t :=
  let self := set_angle self (RectangularCoil.angle self + angle) in
  let rotation := rotation angle in
  set_centroid self (add_pt (matmul (sub_pt (centroid self) pivot) rotation)
                            pivot).

End RectangularCoil.

(** ** class MagnetRing *)

Module MagnetRing.

Record t : Type := mk {
  base : CurrentFilamentSet.t R;
  _r0 : R;
  _z0 : R;
  _width : R;
  _height : R;
  _mu_hat : R
}.

#[global] Instance uptodate : HasUptodate t := {
  get__uptodate := fun self => get__uptodate (base self);
  set__uptodate := fun self b =>
    mk (set__uptodate (base self) b) (_r0 self) (_z0 self) (_width self)
       (_height self) (_mu_hat self)
}.

Definition _codes : list patches.code :=
  [patches.MOVETO; patches.LINETO; patches.LINETO; patches.LINETO;
   patches.CLOSEPOLY].

(** [weights = np.ones(16); weights[:8] = -1.] *)
Definition default_weights {F : Type} `{Arith F} : list F :=
  let weights := repeat one 16 in
  map (fun _ => neg one) (firstn 8 weights) ++ skipn 8 weights.

(** [__init__(self, r0=1., z0=0., width=0.01, height=0.01, mu_hat=0., ...)]:
    the five parameters go through their setters, [weights] is taken out
    of the keyword arguments and defaulted, then the base class runs (it
    never reads [npts], which has no [_weights] to measure yet). *)
Definition __init__ (r0 z0 width height mu_hat : R)
  (weights : option (list R)) (current : R) (kw : option kwargs)
  (fields_uptodate : bool) : result t :=
  let weights := match weights with
                 | None => default_weights
                 | Some w => w
                 end in
  b <- CurrentFilamentSet.__init__ (Raise AttributeError)
         current (Some weights) kw fields_uptodate ;;
  Ok (mk b r0 z0 width height mu_hat).

Definition r0 (self : t) : R := _r0 self.
Definition z0 (self : t) : R := _z0 self.
Definition centroid (self : t) : point := (r0 self, z0 self).
Definition width (self : t) : R := _width self.
Definition height (self : t) : R := _height self.
Definition mu_hat (self : t) : R := _mu_hat self.

Definition npts (self : t) : Z :=
  Z.of_nat (length (CurrentFilamentSet._weights (base self))).

Section WithTolerance.
(** [cv._ATOL], a constant of pleiades/checkvalue.py. *)
Variable _ATOL : R.

Definition rz_pts (self : t) : result ndarray :=
  let npts := npts self in
  let hnpts := (npts / 2)%Z in
  let r0 := fst (centroid self) in
  let z0 := snd (centroid self) in
  let hw := width self / 2 in
  let hh := height self / 2 in
  ones <- np.ones hnpts ;;
  let rspace := map (fun x => hw * x) ones in
  zspace <- np.linspace (- hh) hh hnpts ;;
  let n := Z.to_nat npts in
  let h := Z.to_nat hnpts in
  r_lo <- np.broadcast_to (map (fun x => r0 - x) rspace) (Nat.min h n) ;;
  r_hi <- np.broadcast_to (map (fun x => r0 + x) rspace) (n - h) ;;
  z_lo <- np.broadcast_to (map (fun z => z0 + z) zspace) (Nat.min h n) ;;
  z_hi <- np.broadcast_to (map (fun z => z0 + z) zspace) (n - h) ;;
  let rz_pts := ArrN2 (combine (r_lo ++ r_hi) (z_lo ++ z_hi)) in
  if np.isclose (mu_hat self) 0 0 _ATOL then Ok rz_pts
  else transforms.rotate rz_pts (mu_hat self) (r0, z0).

Definition _verts (self : t) : result (list point) :=
  let npts := npts self in
  let idx := [0; npts / 2 - 1; npts - 1; npts / 2; 0]%Z in
  pts <- rz_pts self ;;
  np.index_rows pts idx.

(** The positional argument is evaluated before the styling dictionary
    is unpacked. *)
Definition patch (self : t) : result patches.PathPatch :=
  v <- _verts self ;;
  p <- patches.new_Path v _codes ;;
  kw <- patches.unpack_kwargs (CurrentFilamentSet.patch_kw (base self)) ;;
  Ok (patches.mkPathPatch p kw).
End WithTolerance.

Definition set_r0 : t -> R -> t :=
  cv.flag_greens_on_set (fun self r0 =>
    mk (base self) r0 (_z0 self) (_width self) (_height self) (_mu_hat self)).

Definition set_z0 : t -> R -> t :=
  cv.flag_greens_on_set (fun self z0 =>
    mk (base self) (_r0 self) z0 (_width self) (_height self) (_mu_hat self)).

Definition set_centroid : t -> point -> t :=
  cv.flag_greens_on_set (fun self centroid =>
    mk (base self) (fst centroid) (snd centroid) (_width self) (_height self)
       (_mu_hat self)).

Definition set_width : t -> R -> t :=
  cv.flag_greens_on_set (fun self width =>
    mk (base self) (_r0 self) (_z0 self) width (_height self) (_mu_hat self)).

Definition set_height : t -> R -> t :=
  cv.flag_greens_on_set (fun self height =>
    mk (base self) (_r0 self) (_z0 self) (_width self) height (_mu_hat self)).

Definition set_mu_hat : t -> R -> t :=
  cv.flag_greens_on_set (fun self mu_hat =>
    mk (base self) (_r0 self) (_z0 self) (_width self) (_height self) mu_hat).

Definition translate (self : t) (vector : point) : t :=
  set_centroid self (add_pt (centroid self) vector).

Definition rotate (self : t) (angle : R) (pivot : point) : t :=
  let self := set_mu_hat self (mu_hat self + angle) in
  let rotation := rotation angle in
  set_centroid self (add_pt (matmul (sub_pt (centroid self) pivot) rotation)
                            pivot).

End MagnetRing.

(** ** A filament set of any of the three classes *)

Module FilamentSet.

Inductive t : Type :=
| AP (s : ArbitraryPoints.t)
| RC (s : RectangularCoil.t)
| MR (s : MagnetRing.t).

Definition base (self : t) : CurrentFilamentSet.t R :=
  match self with
  | AP s => ArbitraryPoints.base s
  | RC s => RectangularCoil.base s
  | MR s => MagnetRing.base s
  end.

Definition with_base (self : t) (b : CurrentFilamentSet.t R) : t :=
  match self with
  | AP s => AP (ArbitraryPoints.mk b (ArbitraryPoints._rz_pts s)
                  (ArbitraryPoints._angle s))
  | RC s => RC (RectangularCoil.mk b (RectangularCoil._r0 s)
                  (RectangularCoil._z0 s) (RectangularCoil._nr s)
                  (RectangularCoil._nz s) (RectangularCoil._dr s)
                  (RectangularCoil._dz s) (RectangularCoil._angle s))
  | MR s => MR (MagnetRing.mk b (MagnetRing._r0 s) (MagnetRing._z0 s)
                  (MagnetRing._width s) (MagnetRing._height s)
                  (MagnetRing._mu_hat s))
  end.

#[global] Instance uptodate : HasUptodate t := {
  get__uptodate := fun self => get__uptodate (base self);
  set__uptodate := fun self b => with_base self (set__uptodate (base self) b)
}.

(** *** Members inherited from [CurrentFilamentSet] *)

Definition current (self : t) : R := CurrentFilamentSet.current (base self).

Definition weights (self : t) : list R :=
  CurrentFilamentSet.weights (base self).

Definition total_current (self : t) : R :=
  CurrentFilamentSet.total_current (base self).

Definition set_current (self : t) (current : R) : t :=
  with_base self (CurrentFilamentSet.set_current (base self) current).

Definition set_weights (self : t) (weights : list R) : t :=
  with_base self (CurrentFilamentSet.set_weights (base self) weights).

Definition set_total_current (self : t) (total_current : R) : t :=
  with_base self
    (CurrentFilamentSet.set_total_current (base self) total_current).

Definition patch_kw (self : t) : option kwargs :=
  CurrentFilamentSet.patch_kw (base self).

Definition set_patch_kw (self : t) (kw : option kwargs) : t :=
  with_base self (CurrentFilamentSet.set_patch_kw (base self) kw).

(** *** The abstract members, by class *)

Definition npts (self : t) : Z :=
  match self with
  | AP s => ArbitraryPoints.npts s
  | RC s => RectangularCoil.npts s
  | MR s => MagnetRing.npts s
  end.

Definition translate (self : t) (vector : point) : t :=
  match self with
  | AP s => AP (ArbitraryPoints.translate s vector)
  | RC s => RC (RectangularCoil.translate s vector)
  | MR s => MR (MagnetRing.translate s vector)
  end.

Definition rotate (self : t) (angle : R) (pivot : point) : t :=
  match self with
  | AP s => AP (ArbitraryPoints.rotate s angle pivot)
  | RC s => RC (RectangularCoil.rotate s angle pivot)
  | MR s => MR (MagnetRing.rotate s angle pivot)
  end.

(** A call of one of the two rigid motions, and a sequence of calls. *)
Inductive motion : Type :=
| Translate (vector : point)
| Rotate (angle : R) (pivot : point).

Definition call (self : t) (m : motion) : t :=
  match m with
  | Translate vector => translate self vector
  | Rotate angle pivot => rotate self angle pivot
  end.

Definition calls (self : t) (ms : list motion) : t := fold_left call ms self.

Section WithTolerance.
Variable _ATOL : R.

Definition rz_pts (self : t) : result ndarray :=
  match self with
  | AP s => Ok (ArbitraryPoints.rz_pts s)
  | RC s => RectangularCoil.rz_pts s
  | MR s => MagnetRing.rz_pts _ATOL s
  end.

Definition patch (self : t) : result (option patches.PathPatch) :=
  match self with
  | AP s => Ok (ArbitraryPoints.patch s)
  | RC s => p <- RectangularCoil.patch s ;; Ok (Some p)
  | MR s => p <- MagnetRing.patch _ATOL s ;; Ok (Some p)
  end.

(** [simplify]: reads [rz_pts] and [total_current], assigns nothing,
    raises.  The instance comes back as it went in. *)
Definition simplify (self : t) : t * result unit :=
  (self,
   pts <- rz_pts self ;;
   r0z0 <- np.unpack2 (np.mean_axis0 pts) ;;
   let current := total_current self in
   Raise NotImplementedError).
End WithTolerance.

Definition clone (self : t) : t * result t :=
  (self, Raise NotImplementedError).

Section WithAxes.
Variable _ATOL : R.

(** [rzw]: an [npts] x 3 array is allocated, its first two columns are
    assigned [rz_pts] and its last column [weights], each under numpy's
    broadcasting of an assignment. *)
Definition rzw (self : t) : result (list (R * R * R)) :=
  let n := npts self in
  if (n <? 0)%Z then Raise ValueError
  else
    pts <- rz_pts _ATOL self ;;
    rz <- match pts with
          | Arr1_empty => Raise ValueError
          | ArrN2 rows => np.broadcast_to rows (Z.to_nat n)
          end ;;
    w <- np.broadcast_to (weights self) (Z.to_nat n) ;;
    Ok (combine rz w).

(** [_markers]: the signed currents [current*weights], those below
    [cv._ATOL] in absolute value set to 0, then one marker each.  [ck]
    and [wk] say how the current and the weights are held when the
    property is read. *)
Definition _markers (ck : scalar_kind) (wk : sequence_kind) (self : t)
  : result (list string) :=
  cw <- scalar_times ck wk (current self) (weights self) ;;
  let cw := map (fun x => if Rlt_dec (Rabs x) _ATOL then 0 else x) cw in
  Ok (map (fun cwi => if Req_dec_T cwi 0 then EmptyString
                      else if Rlt_dec 0 cwi then "x"%string else "o"%string)
          cw).

(** The axes [plot] draws on belong to matplotlib: their state and their
    two methods are taken as given.  A method returns the axes as it
    leaves them, with or without an exception. *)
Variable Axes : Type.
Variable add_patch : Axes -> option patches.PathPatch -> Axes * result unit.
Variable ax_plot : Axes -> R -> R -> string -> kwargs -> Axes * result unit.

(** The loop of [plot]: [ax.plot(r, z, marker=markers[i], ...)] for the
    rows from number [i] on. *)
Fixpoint plot_rows (ax : Axes) (markers : list string) (kw : kwargs)
  (i : nat) (rows : list (R * R * R)) : Axes * result unit :=
  match rows with
  | [] => (ax, Ok tt)
  | (r, z, w) :: tl =>
      match np.item markers (Z.of_nat i) with
      | Raise e => (ax, Raise e)
      | Ok marker =>
          match ax_plot ax r z marker kw with
          | (ax, Ok _) => plot_rows ax markers kw (S i) tl
          | (ax, Raise e) => (ax, Raise e)
          end
      end
  end.

(** [plot(self, ax, plot_patch=True, ...)]: the patch, then the markers,
    then the rows of [rzw], one call of [ax.plot] each.  [ck] and [wk]
    are passed on to [_markers]. *)
Definition plot (ck : scalar_kind) (wk : sequence_kind) (self : t)
  (ax : Axes) (plot_patch : bool) (kw : kwargs) : Axes * result unit :=
  let patched :=
    if plot_patch then
      match patch _ATOL self with
      | Raise e => (ax, Raise e)
      | Ok p => add_patch ax p
      end
    else (ax, Ok tt) in
  match patched with
  | (ax, Raise e) => (ax, Raise e)
  | (ax, Ok _) =>
      match _markers ck wk self with
      | Raise e => (ax, Raise e)
      | Ok markers =>
          match rzw self with
          | Raise e => (ax, Raise e)
          | Ok rows => plot_rows ax markers kw 0 rows
          end
      end
  end.
End WithAxes.

End FilamentSet.

(** ** Instances used as examples *)

(** [RectangularCoil(r0=1.0, z0=0.0, nr=2, nz=2, dr=0.1, dz=0.1, angle=0)] *)
Definition example_coil : RectangularCoil.t :=
  RectangularCoil.mk (CurrentFilamentSet.mk 1 [1; 1; 1; 1] None false)
    1 0 2 2 0.1 0.1 0.

(** The same coil after [angle = 90]. *)
Definition example_coil_turned : RectangularCoil.t :=
  RectangularCoil.set_angle example_coil 90.

(** [MagnetRing(r0=1.0, z0=0.0, width=0.02, height=0.08)] *)
Definition example_magnet : MagnetRing.t :=
  MagnetRing.mk
    (CurrentFilamentSet.mk 1 MagnetRing.default_weights None false)
    1 0 0.02 0.08 0.

(** [ArbitraryPoints([[1., 0.], [2., 0.]])] *)
Definition example_points : ArbitraryPoints.t :=
  ArbitraryPoints.mk (CurrentFilamentSet.mk 1 [1; 1] None false)
    [(1, 0); (2, 0)] 0.

(** The same points after [weights = [2.]]. *)
Definition example_points_one_weight : FilamentSet.t :=
  FilamentSet.set_weights (FilamentSet.AP example_points) [2].

(** Axes that accept everything, counting the patches added and keeping
    the markers plotted. *)
Definition recorder : Type := (nat * list (R * R * string))%type.

Definition recorder_add_patch (ax : recorder)
  (p : option patches.PathPatch) : recorder * result unit :=
  ((S (fst ax), snd ax), Ok tt).

Definition recorder_plot (ax : recorder) (r z : R) (marker : string)
  (kw : kwargs) : recorder * result unit :=
  ((fst ax, snd ax ++ [(r, z, marker)]), Ok tt).

(** The base-class attributes of a default MagnetRing, in binary64. *)
Definition example_magnet_binary64 : CurrentFilamentSet.t binary64 :=
  CurrentFilamentSet.mk one MagnetRing.default_weights None false.

(** ** Vocabulary of the specification and of the proofs *)

(** [n] values [d] apart, centred on [c]: evenly spaced, from
    [c - d*(n-1)/2] to [c + d*(n-1)/2]. *)
Definition evenly_spaced (c d : R) (n : Z) : list R :=
  map (fun i : nat => c - d * IZR (n - 1) / 2 + INR i * d)
      (seq 0 (Z.to_nat n)).

(** The Cartesian product in (R, Z) order: for each R value, every Z
    value. *)
Definition cartesian (rs zs : list R) : list point :=
  flat_map (fun r => map (fun z => (r, z)) zs) rs.

Definition grid (r0 z0 : R) (nr nz : Z) (dr dz : R) : list point :=
  cartesian (evenly_spaced r0 dr nr) (evenly_spaced z0 dz nz).

(** [l] holds [n] values, the first [lo], the last [hi], any two
    neighbours as far apart as any other two. *)
Definition spans_evenly (l : list R) (lo hi : R) (n : Z) : Prop :=
  Z.of_nat (length l) = n /\
  nth 0 l 0 = lo /\
  nth (Z.to_nat n - 1) l 0 = hi /\
  forall i j, (S i < Z.to_nat n)%nat -> (S j < Z.to_nat n)%nat ->
              nth (S i) l 0 - nth i l 0 = nth (S j) l 0 - nth j l 0.

(** Two arrangements of as many points, with the same distance between
    the points of every two positions. *)
Definition same_distances (a b : list point) : Prop :=
  length a = length b /\
  forall i j p q p' q',
    nth_error a i = Some p -> nth_error a j = Some q ->
    nth_error b i = Some p' -> nth_error b j = Some q' ->
    dist p q = dist p' q'.

Definition len {A : Type} (l : list A) : Z := Z.of_nat (length l).

(** The invariant of the specification: as many weights as filaments. *)
Definition weights_match (self : FilamentSet.t) : Prop :=
  len (FilamentSet.weights self) = FilamentSet.npts self.

(** A mutation that leaves the weights and [npts] as they were. *)
Definition keeps_weights_and_npts (before after : FilamentSet.t) : Prop :=
  FilamentSet.weights after = FilamentSet.weights before /\
  FilamentSet.npts after = FilamentSet.npts before.

(** The instances the data model admits: a coil with at least one
    filament each way, a magnet whose filaments split into two equal
    sheets, any array of points. *)
Definition data_model (self : FilamentSet.t) : Prop :=
  match self with
  | FilamentSet.AP _ => True
  | FilamentSet.RC c =>
      (1 <= RectangularCoil.nr c)%Z /\ (1 <= RectangularCoil.nz c)%Z
  | FilamentSet.MR m => Z.even (MagnetRing.npts m) = true
  end.

(** Where a point given relative to the centroid ends up: shifted to the
    centroid, then turned about it when there is an angle to turn by. *)
Definition place (centroid : point) (turn : option R) (q : point) : point :=
  let p := add_pt centroid q in
  match turn with
  | None => p
  | Some angle => rotate_about angle centroid p
  end.

(** The marker of the opposite current. *)
Definition swap_marker (marker : string) : string :=
  if String.eqb marker "x" then "o"%string
  else if String.eqb marker "o" then "x"%string
  else marker.

(** No turn when the stored angle tests close to zero. *)
Definition turn_of (close : bool) (angle : R) : option R :=
  if close then None else Some angle.

(** The two current sheets of a MagnetRing relative to its centroid and
    before any rotation: the columns [MagnetRing.rz_pts] fills, with the
    centroid left out. *)
Definition magnet_sheets (npts : Z) (width height : R)
  : result (list point) :=
  let hnpts := (npts / 2)%Z in
  let hw := width / 2 in
  let hh := height / 2 in
  ones <- np.ones hnpts ;;
  let rspace := map (fun x => hw * x) ones in
  zspace <- np.linspace (- hh) hh hnpts ;;
  let n := Z.to_nat npts in
  let h := Z.to_nat hnpts in
  r_lo <- np.broadcast_to (map Ropp rspace) (Nat.min h n) ;;
  r_hi <- np.broadcast_to rspace (n - h) ;;
  z_lo <- np.broadcast_to zspace (Nat.min h n) ;;
  z_hi <- np.broadcast_to zspace (n - h) ;;
  Ok (combine (r_lo ++ r_hi) (z_lo ++ z_hi)).

(** * Properties *)

(** ** Invalidation *)

Lemma flag_greens_on_set_marks {S A : Type} `{HasUptodate S}
  (func : S -> A -> S) :
  (forall self v, get__uptodate (func self v) = get__uptodate self) ->
  (forall self, get__uptodate (set__uptodate self false) = false) ->
  forall self v, get__uptodate (cv.flag_greens_on_set func self v) = false.
Proof.
  intros Hfunc Hset self v. unfold cv.flag_greens_on_set.
  rewrite Hfunc. apply Hset.
Qed.

(** C1. Every decorated setter ([weights] on any instance; [r0], [z0],
    [centroid], [nr], [nz], [dr], [dz], [angle] on a RectangularCoil; [r0],
    [z0], [centroid], [width], [height], [mu_hat] on a MagnetRing) and
    every [translate] and [rotate] leaves [_uptodate] false, that is, marks
    the Green's-function data stale.  Assigning [current] keeps the flag as
    it was, stores the new current, keeps the weights, and changes nothing
    else: assigning the old current again gives back the very instance. *)
Theorem staleness_flag :
  (forall (self : FilamentSet.t) w,
      get__uptodate (FilamentSet.set_weights self w) = false) /\
  (forall (c : RectangularCoil.t),
      (forall x, get__uptodate (RectangularCoil.set_r0 c x) = false) /\
      (forall x, get__uptodate (RectangularCoil.set_z0 c x) = false) /\
      (forall x, get__uptodate (RectangularCoil.set_centroid c x) = false) /\
      (forall n, get__uptodate (RectangularCoil.set_nr c n) = false) /\
      (forall n, get__uptodate (RectangularCoil.set_nz c n) = false) /\
      (forall x, get__uptodate (RectangularCoil.set_dr c x) = false) /\
      (forall x, get__uptodate (RectangularCoil.set_dz c x) = false) /\
      (forall x, get__uptodate (RectangularCoil.set_angle c x) = false)) /\
  (forall (m : MagnetRing.t),
      (forall x, get__uptodate (MagnetRing.set_r0 m x) = false) /\
      (forall x, get__uptodate (MagnetRing.set_z0 m x) = false) /\
      (forall x, get__uptodate (MagnetRing.set_centroid m x) = false) /\
      (forall x, get__uptodate (MagnetRing.set_width m x) = false) /\
      (forall x, get__uptodate (MagnetRing.set_height m x) = false) /\
      (forall x, get__uptodate (MagnetRing.set_mu_hat m x) = false)) /\
  (forall (self : FilamentSet.t) vector,
      get__uptodate (FilamentSet.translate self vector) = false) /\
  (forall (self : FilamentSet.t) angle pivot,
      get__uptodate (FilamentSet.rotate self angle pivot) = false) /\
  (forall (self : FilamentSet.t) current,
      get__uptodate (FilamentSet.set_current self current)
      = get__uptodate self /\
      FilamentSet.current (FilamentSet.set_current self current) = current /\
      FilamentSet.weights (FilamentSet.set_current self current)
      = FilamentSet.weights self /\
      FilamentSet.set_current (FilamentSet.set_current self current)
        (FilamentSet.current self) = self).
Proof.
  repeat split; intros;
    try (apply flag_greens_on_set_marks; intros; reflexivity);
    try (destruct self; reflexivity).
  destruct self as [[[] ? ?]|[[] ? ? ? ? ? ? ?]|[[] ? ? ? ? ?]]; reflexivity.
Qed.

(** ** Weights and filament counts *)

Lemma np_sum_default_weights :
  np.sum (MagnetRing.default_weights (F := R)) = 0.
Proof. unfold np.sum, MagnetRing.default_weights. simpl. lra. Qed.

(** C3, as amended.  A MagnetRing built without explicit weights has
    [npts = 16] and the weights -1 (eight times) then +1 (eight times);
    they sum to zero and [total_current] is zero whatever the current, in
    exact arithmetic and, for every finite current, in binary64.  In every
    state [npts] is the number of stored weights. *)
Theorem magnet_ring_defaults :
  (forall r0 z0 width height mu_hat current kw fields_uptodate,
      exists m,
        MagnetRing.__init__ r0 z0 width height mu_hat None current kw
          fields_uptodate = Ok m /\
        MagnetRing.npts m = 16%Z /\
        FilamentSet.weights (FilamentSet.MR m)
        = repeat (-1) 8 ++ repeat 1 8 /\
        np.sum (FilamentSet.weights (FilamentSet.MR m)) = 0 /\
        FilamentSet.total_current (FilamentSet.MR m) = 0 /\
        forall I,
          FilamentSet.total_current
            (FilamentSet.set_current (FilamentSet.MR m) I) = 0) /\
  (forall (I : binary64) kw fu,
      non_finite I = false ->
      exists s,
        CurrentFilamentSet.total_current
          (CurrentFilamentSet.mk I MagnetRing.default_weights kw fu)
        = S754_zero s) /\
  (forall m : MagnetRing.t,
      MagnetRing.npts m = len (FilamentSet.weights (FilamentSet.MR m))).
Proof.
  split; [|split].
  - intros. eexists. split; [reflexivity|].
    split; [reflexivity|]. split.
    { unfold FilamentSet.weights, CurrentFilamentSet.weights. simpl.
      unfold MagnetRing.default_weights. simpl. repeat f_equal; lra. }
    split.
    { apply np_sum_default_weights. }
    split.
    { unfold FilamentSet.total_current, CurrentFilamentSet.total_current.
      simpl.
      change (current * np.sum (MagnetRing.default_weights (F := R)) = 0).
      rewrite np_sum_default_weights. lra. }
    intros I. unfold FilamentSet.total_current,
      CurrentFilamentSet.total_current. simpl.
    change (I * np.sum (MagnetRing.default_weights (F := R)) = 0).
    rewrite np_sum_default_weights. lra.
  - intros I kw fu HI.
    unfold CurrentFilamentSet.total_current, CurrentFilamentSet.current,
      CurrentFilamentSet.weights. cbn [CurrentFilamentSet._current
      CurrentFilamentSet._weights].
    replace (np.sum (MagnetRing.default_weights (F := binary64)))
      with (S754_zero false) by (vm_compute; reflexivity).
    destruct I as [s| | |s m e]; try discriminate HI;
      eexists; reflexivity.
  - intros m. reflexivity.
Qed.

Lemma magnet_ring_defaults_witness :
  non_finite one = false /\
  exists s,
    CurrentFilamentSet.total_current example_magnet_binary64 = S754_zero s.
Proof.
  split; [reflexivity|].
  apply (proj1 (proj2 magnet_ring_defaults) one None false). reflexivity.
Defined.

(** C3, as stated, fails: a MagnetRing built with two explicit weights has
    two filaments, not sixteen. *)
Lemma magnet_ring_npts_not_fixed :
  ~ (forall r0 z0 width height mu_hat weights current kw fields_uptodate m,
        MagnetRing.__init__ r0 z0 width height mu_hat weights current kw
          fields_uptodate = Ok m ->
        MagnetRing.npts m = 16%Z).
Proof.
  intros H.
  specialize (H 1 0 0.01 0.01 0 (Some [1; 1]) 1 None false _ eq_refl).
  discriminate H.
Qed.

Lemma ones_length (n : Z) (w : list R) :
  np.ones n = Ok w -> len w = n.
Proof.
  unfold np.ones, len. destruct (Z.ltb_spec n 0); [discriminate|].
  intros E. injection E as <-. rewrite repeat_length. lia.
Qed.

(** C4, as amended.  [len(weights) == npts] holds after construction
    without explicit weights, and in every state of a MagnetRing, whose
    [npts] is [len(weights)].  Every mutation that touches neither the
    weights nor [npts] keeps it: assigning [current], [total_current] or
    [patch_kw], [translate] and [rotate] on every class; the [r0], [z0],
    [centroid], [dr], [dz] and [angle] setters of a RectangularCoil; the
    [r0], [z0], [centroid], [width], [height] and [mu_hat] setters of a
    MagnetRing.

    Three operations can part the two on an ArbitraryPoints or a
    RectangularCoil, since nothing compares them.  The [weights] setter
    stores the sequence it is given, whatever its length, and leaves
    [npts] as it was: the equation holds afterwards exactly when the
    sequence has [npts] entries.  The [nr] and [nz] setters of a
    RectangularCoil keep the weights and change [npts] to the new
    [nr*nz]: the equation holds afterwards exactly when that product is
    the number of weights.  Construction with explicit weights always
    succeeds and stores them as given: the equation holds afterwards
    exactly when there are as many weights as points, or [nr*nz] of
    them. *)
Theorem weights_and_npts :
  (forall pts I kw fu s,
      ArbitraryPoints.__init__ pts I None kw fu = Ok s ->
      len (FilamentSet.weights (FilamentSet.AP s))
      = FilamentSet.npts (FilamentSet.AP s)) /\
  (forall r0 z0 nr nz dr dz angle I kw fu c,
      RectangularCoil.__init__ r0 z0 nr nz dr dz angle I None kw fu = Ok c ->
      len (FilamentSet.weights (FilamentSet.RC c))
      = FilamentSet.npts (FilamentSet.RC c)) /\
  (forall m : MagnetRing.t,
      len (FilamentSet.weights (FilamentSet.MR m))
      = FilamentSet.npts (FilamentSet.MR m)) /\
  (forall (self : FilamentSet.t),
      (forall I,
          FilamentSet.weights (FilamentSet.set_current self I)
          = FilamentSet.weights self /\
          FilamentSet.npts (FilamentSet.set_current self I)
          = FilamentSet.npts self) /\
      (forall T,
          FilamentSet.weights (FilamentSet.set_total_current self T)
          = FilamentSet.weights self /\
          FilamentSet.npts (FilamentSet.set_total_current self T)
          = FilamentSet.npts self) /\
      (forall v,
          FilamentSet.weights (FilamentSet.translate self v)
          = FilamentSet.weights self /\
          FilamentSet.npts (FilamentSet.translate self v)
          = FilamentSet.npts self) /\
      (forall a p,
          FilamentSet.weights (FilamentSet.rotate self a p)
          = FilamentSet.weights self /\
          FilamentSet.npts (FilamentSet.rotate self a p)
          = FilamentSet.npts self)) /\
  (forall (self : FilamentSet.t) w,
      FilamentSet.weights (FilamentSet.set_weights self w) = w) /\
  (forall s w,
      FilamentSet.npts (FilamentSet.set_weights (FilamentSet.AP s) w)
      = FilamentSet.npts (FilamentSet.AP s)) /\
  (forall c w,
      FilamentSet.npts (FilamentSet.set_weights (FilamentSet.RC c) w)
      = FilamentSet.npts (FilamentSet.RC c)) /\
  (forall before after,
      keeps_weights_and_npts before after ->
      weights_match before -> weights_match after) /\
  (forall (self : FilamentSet.t) kw,
      keeps_weights_and_npts self (FilamentSet.set_patch_kw self kw)) /\
  (forall (c : RectangularCoil.t),
      let keeps c' :=
        keeps_weights_and_npts (FilamentSet.RC c) (FilamentSet.RC c') in
      (forall x, keeps (RectangularCoil.set_r0 c x)) /\
      (forall x, keeps (RectangularCoil.set_z0 c x)) /\
      (forall x, keeps (RectangularCoil.set_centroid c x)) /\
      (forall x, keeps (RectangularCoil.set_dr c x)) /\
      (forall x, keeps (RectangularCoil.set_dz c x)) /\
      (forall x, keeps (RectangularCoil.set_angle c x))) /\
  (forall (m : MagnetRing.t),
      let keeps m' :=
        keeps_weights_and_npts (FilamentSet.MR m) (FilamentSet.MR m') in
      (forall x, keeps (MagnetRing.set_r0 m x)) /\
      (forall x, keeps (MagnetRing.set_z0 m x)) /\
      (forall x, keeps (MagnetRing.set_centroid m x)) /\
      (forall x, keeps (MagnetRing.set_width m x)) /\
      (forall x, keeps (MagnetRing.set_height m x)) /\
      (forall x, keeps (MagnetRing.set_mu_hat m x))) /\
  (forall (c : RectangularCoil.t) n,
      (FilamentSet.weights (FilamentSet.RC (RectangularCoil.set_nr c n))
       = FilamentSet.weights (FilamentSet.RC c) /\
       FilamentSet.npts (FilamentSet.RC (RectangularCoil.set_nr c n))
       = (n * RectangularCoil.nz c)%Z /\
       (weights_match (FilamentSet.RC (RectangularCoil.set_nr c n)) <->
        len (FilamentSet.weights (FilamentSet.RC c))
        = (n * RectangularCoil.nz c)%Z)) /\
      (FilamentSet.weights (FilamentSet.RC (RectangularCoil.set_nz c n))
       = FilamentSet.weights (FilamentSet.RC c) /\
       FilamentSet.npts (FilamentSet.RC (RectangularCoil.set_nz c n))
       = (RectangularCoil.nr c * n)%Z /\
       (weights_match (FilamentSet.RC (RectangularCoil.set_nz c n)) <->
        len (FilamentSet.weights (FilamentSet.RC c))
        = (RectangularCoil.nr c * n)%Z))) /\
  (forall (self : FilamentSet.t) w,
      weights_match (FilamentSet.set_weights self w) <->
      match self with
      | FilamentSet.MR _ => True
      | _ => len w = FilamentSet.npts self
      end) /\
  (forall pts I w kw fu,
      exists s,
        ArbitraryPoints.__init__ pts I (Some w) kw fu = Ok s /\
        FilamentSet.weights (FilamentSet.AP s) = w /\
        FilamentSet.npts (FilamentSet.AP s) = len pts /\
        (weights_match (FilamentSet.AP s) <-> len w = len pts)) /\
  (forall r0 z0 nr nz dr dz angle I w kw fu,
      exists c,
        RectangularCoil.__init__ r0 z0 nr nz dr dz angle I (Some w) kw fu
        = Ok c /\
        FilamentSet.weights (FilamentSet.RC c) = w /\
        FilamentSet.npts (FilamentSet.RC c) = (nr * nz)%Z /\
        (weights_match (FilamentSet.RC c) <-> len w = (nr * nz)%Z)) /\
  (forall r0 z0 width height mu_hat I w kw fu,
      exists m,
        MagnetRing.__init__ r0 z0 width height mu_hat (Some w) I kw fu
        = Ok m /\
        FilamentSet.weights (FilamentSet.MR m) = w /\
        FilamentSet.npts (FilamentSet.MR m) = len w).
Proof.
  split; [|split; [|split; [|split; [|split; [|split; [|split]]]]]].
  - intros pts I kw fu s E. unfold ArbitraryPoints.__init__ in E.
    unfold CurrentFilamentSet.__init__ in E. simpl in E.
    destruct (np.ones (Z.of_nat (length pts))) as [w|e] eqn:Ew;
      [|discriminate].
    simpl in E. injection E as <-. simpl.
    unfold FilamentSet.weights, CurrentFilamentSet.weights,
      ArbitraryPoints.npts. simpl.
    apply (ones_length _ Ew).
  - intros r0 z0 nr nz dr dz angle I kw fu c E.
    unfold RectangularCoil.__init__, CurrentFilamentSet.__init__ in E.
    simpl in E.
    destruct (np.ones (nr * nz)) as [w|e] eqn:Ew; [|discriminate].
    simpl in E. injection E as <-.
    unfold FilamentSet.weights, CurrentFilamentSet.weights. simpl.
    unfold RectangularCoil.npts. simpl.
    apply (ones_length _ Ew).
  - intros m. reflexivity.
  - intros self. repeat split; intros; destruct self; try reflexivity.
    unfold FilamentSet.npts, FilamentSet.rotate, ArbitraryPoints.rotate,
      ArbitraryPoints.npts. simpl. now rewrite length_map.
    unfold FilamentSet.npts, FilamentSet.translate,
      ArbitraryPoints.translate, ArbitraryPoints.npts. simpl.
    now rewrite length_map.
  - intros self w. destruct self; reflexivity.
  - intros s w. reflexivity.
  - intros c w. reflexivity.
  - split.
    { intros before after [Hw Hn] Hm. unfold weights_match in *.
      now rewrite Hw, Hn. }
    split.
    { intros self kw. destruct self; split; reflexivity. }
    split.
    { intros c keeps. unfold keeps, keeps_weights_and_npts.
      repeat split; reflexivity. }
    split.
    { intros m keeps. unfold keeps, keeps_weights_and_npts.
      repeat split; reflexivity. }
    split.
    { intros c n. unfold weights_match.
      split; (split; [reflexivity|split; [reflexivity|]]);
        split; intros Hl; exact Hl. }
    split.
    { intros self w. unfold weights_match.
      destruct self as [s|c|m].
      - split; intros Hl; exact Hl.
      - split; intros Hl; exact Hl.
      - split; [intros _; exact I|intros _; reflexivity]. }
    split.
    { intros pts I w kw fu. eexists. split; [reflexivity|].
      split; [reflexivity|]. split; [reflexivity|].
      unfold weights_match. split; intros Hl; exact Hl. }
    split.
    { intros r0 z0 nr nz dr dz angle I w kw fu.
      eexists. split; [reflexivity|].
      split; [reflexivity|]. split; [reflexivity|].
      unfold weights_match. split; intros Hl; exact Hl. }
    intros r0 z0 width height mu_hat I w kw fu.
    eexists. split; [reflexivity|]. split; reflexivity.
Qed.

Lemma weights_and_npts_witness :
  RectangularCoil.__init__ 1 0 2 2 0.1 0.1 0 1 None None false
  = Ok example_coil /\
  len (FilamentSet.weights (FilamentSet.RC example_coil))
  = FilamentSet.npts (FilamentSet.RC example_coil).
Proof.
  assert (H : RectangularCoil.__init__ 1 0 2 2 0.1 0.1 0 1 None None false
              = Ok example_coil) by reflexivity.
  split; [exact H|].
  apply (proj1 (proj2 weights_and_npts) _ _ _ _ _ _ _ _ _ _ _ H).
Defined.

(** C4, as stated, fails, in each of the three ways the code has of
    parting the weights from [npts].  A RectangularCoil built with the
    default single filament and then given two weights has
    [len(weights) = 2] and [npts = 1]; the same coil after [nr = 2] has
    [len(weights) = 1] and [npts = 2]; and a RectangularCoil built with
    two explicit weights and the default counts has [len(weights) = 2]
    and [npts = 1] from the start. *)
Lemma weights_and_npts_can_differ :
  ~ (forall c w,
        RectangularCoil.__init__ 1 0 1 1 0.1 0.1 0 1 None None false = Ok c ->
        len (FilamentSet.weights
               (FilamentSet.set_weights (FilamentSet.RC c) w))
        = FilamentSet.npts (FilamentSet.set_weights (FilamentSet.RC c) w)) /\
  ~ (forall c n,
        RectangularCoil.__init__ 1 0 1 1 0.1 0.1 0 1 None None false = Ok c ->
        len (FilamentSet.weights
               (FilamentSet.RC (RectangularCoil.set_nr c n)))
        = FilamentSet.npts (FilamentSet.RC (RectangularCoil.set_nr c n))) /\
  ~ (forall c w,
        RectangularCoil.__init__ 1 0 1 1 0.1 0.1 0 1 (Some w) None false
        = Ok c ->
        len (FilamentSet.weights (FilamentSet.RC c))
        = FilamentSet.npts (FilamentSet.RC c)).
Proof.
  split; [|split]; intros H.
  - specialize (H _ [1; 1] eq_refl). discriminate H.
  - specialize (H _ 2%Z eq_refl). discriminate H.
  - specialize (H _ [1; 1] eq_refl). discriminate H.
Qed.

(** ** Total current *)

(** C7, as amended.  [total_current] is [current * sum(weights)].
    Assigning [T] to it stores [T / sum(weights)] as the current and keeps
    the weights; when the weights do not sum to zero, [total_current]
    then reads back as [T]. *)
Theorem total_current_read_back (self : FilamentSet.t) (T : R) :
  FilamentSet.total_current self
  = FilamentSet.current self * np.sum (FilamentSet.weights self) /\
  FilamentSet.current (FilamentSet.set_total_current self T)
  = T / np.sum (FilamentSet.weights self) /\
  FilamentSet.weights (FilamentSet.set_total_current self T)
  = FilamentSet.weights self /\
  (np.sum (FilamentSet.weights self) <> 0 ->
   FilamentSet.total_current (FilamentSet.set_total_current self T) = T).
Proof.
  assert (Hw : FilamentSet.weights (FilamentSet.set_total_current self T)
               = FilamentSet.weights self) by (destruct self; reflexivity).
  assert (Hc : FilamentSet.current (FilamentSet.set_total_current self T)
               = T / np.sum (FilamentSet.weights self))
    by (destruct self; reflexivity).
  repeat split; try assumption.
  intros Hsum.
  unfold FilamentSet.total_current, CurrentFilamentSet.total_current.
  fold (FilamentSet.current (FilamentSet.set_total_current self T)).
  fold (FilamentSet.weights (FilamentSet.set_total_current self T)).
  rewrite Hc, Hw. simpl. field. exact Hsum.
Qed.

Lemma total_current_read_back_witness :
  np.sum (FilamentSet.weights (FilamentSet.AP example_points)) <> 0 /\
  FilamentSet.total_current
    (FilamentSet.set_total_current (FilamentSet.AP example_points) 3) = 3.
Proof.
  assert (H : np.sum (FilamentSet.weights (FilamentSet.AP example_points))
              <> 0).
  { unfold np.sum. simpl. lra. }
  split; [exact H|].
  apply (total_current_read_back (FilamentSet.AP example_points) 3), H.
Defined.

(** C7, as stated, fails.  In binary64 the base-class part of a default
    MagnetRing (current 1, weights -1 eight times then +1 eight times)
    that is assigned [total_current = 1] stores the current 1/0, and
    [total_current] reads back as NaN, not as 1. *)
Lemma total_current_not_read_back :
  exists self : CurrentFilamentSet.t binary64,
    CurrentFilamentSet.__init__ (Raise AttributeError) one
      (Some MagnetRing.default_weights) None false = Ok self /\
    CurrentFilamentSet.total_current
      (CurrentFilamentSet.set_total_current self one) = S754_nan /\
    CurrentFilamentSet.total_current
      (CurrentFilamentSet.set_total_current self one) <> one.
Proof.
  eexists. split; [reflexivity|].
  split; [vm_compute; reflexivity|vm_compute; discriminate].
Qed.

(** C10.  In binary64, on a filament set whose weights sum to zero (of
    either sign), assigning any [T] to [total_current] goes through: the
    setter has no guard and no error path, the weights stay, and the
    stored current is [T / 0], an infinity or a NaN.  The default weights
    of a MagnetRing sum to zero. *)
Theorem total_current_zero_sum (self : CurrentFilamentSet.t binary64)
  (T : binary64) (s : bool) :
  np.sum (CurrentFilamentSet.weights self) = S754_zero s ->
  CurrentFilamentSet.current (CurrentFilamentSet.set_total_current self T)
  = div T (S754_zero s) /\
  non_finite
    (CurrentFilamentSet.current (CurrentFilamentSet.set_total_current self T))
  = true /\
  CurrentFilamentSet.weights (CurrentFilamentSet.set_total_current self T)
  = CurrentFilamentSet.weights self /\
  np.sum (MagnetRing.default_weights (F := binary64)) = S754_zero false.
Proof.
  intros Hsum.
  unfold CurrentFilamentSet.set_total_current, CurrentFilamentSet.set_current,
    CurrentFilamentSet.current, CurrentFilamentSet.weights in *.
  simpl. rewrite Hsum.
  repeat split.
  destruct T; reflexivity.
Qed.

Lemma total_current_zero_sum_witness :
  np.sum (CurrentFilamentSet.weights example_magnet_binary64)
  = S754_zero false /\
  non_finite
    (CurrentFilamentSet.current
       (CurrentFilamentSet.set_total_current example_magnet_binary64 one))
  = true.
Proof.
  assert (H : np.sum (CurrentFilamentSet.weights example_magnet_binary64)
              = S754_zero false)
    by (vm_compute; reflexivity).
  split; [exact H|].
  apply (total_current_zero_sum example_magnet_binary64 one H).
Defined.

(** ** Calls that never return *)

Lemma simplify_never_returns (_ATOL : R) (self : FilamentSet.t) :
  fst (FilamentSet.simplify _ATOL self) = self /\
  raises (snd (FilamentSet.simplify _ATOL self)).
Proof.
  split; [reflexivity|].
  unfold FilamentSet.simplify, raises. simpl.
  destruct (FilamentSet.rz_pts _ATOL self) as [pts|e]; simpl.
  - destruct (np.unpack2 (np.mean_axis0 pts)) as [rz|e]; simpl; eauto.
  - eauto.
Qed.

(** ** Boundary polygons *)

Lemma take_rows_length (l : list point) (idx : list Z) (v : list point) :
  np.take_rows l idx = Ok v -> length v = length idx.
Proof.
  revert v. induction idx as [|i tl IH]; intros v E; simpl in E.
  - injection E as <-. reflexivity.
  - destruct (np.item l i) as [x|e]; [|discriminate]. simpl in E.
    destruct (np.take_rows l tl) as [xs|e]; [|discriminate]. simpl in E.
    injection E as <-. simpl. f_equal. apply IH. reflexivity.
Qed.

Lemma index_rows_length (a : ndarray) (idx : list Z) (v : list point) :
  np.index_rows a idx = Ok v -> length v = length idx.
Proof.
  destruct a; simpl; [discriminate|]. apply take_rows_length.
Qed.

(** C9.  A MagnetRing whose [patch_kw] is None, as the constructor leaves
    it when no [patch_kw] is passed, raises on [patch]: once the vertices
    are there, unpacking None as keyword arguments is a TypeError.
    [RectangularCoil.patch] does not read [patch_kw]: it is the same
    whatever [patch_kw] holds, and a patch it returns carries no styling
    option. *)
Theorem magnet_ring_patch_raises (_ATOL : R) (m : MagnetRing.t)
  (c : RectangularCoil.t) :
  (FilamentSet.patch_kw (FilamentSet.MR m) = None ->
   raises (MagnetRing.patch _ATOL m) /\
   raises (FilamentSet.patch _ATOL (FilamentSet.MR m)) /\
   (forall v, MagnetRing._verts _ATOL m = Ok v ->
              MagnetRing.patch _ATOL m = Raise TypeError)) /\
  (forall r0 z0 width height mu_hat weights current fu m',
      MagnetRing.__init__ r0 z0 width height mu_hat weights current None fu
      = Ok m' ->
      FilamentSet.patch_kw (FilamentSet.MR m') = None) /\
  (forall kw,
      FilamentSet.patch _ATOL
        (FilamentSet.set_patch_kw (FilamentSet.RC c) kw)
      = FilamentSet.patch _ATOL (FilamentSet.RC c)) /\
  (forall p, RectangularCoil.patch c = Ok p -> patches.props p = []).
Proof.
  split; [|split; [|split]].
  - intros Hkw. unfold FilamentSet.patch_kw in Hkw. simpl in Hkw.
    assert (Hverts : forall v, MagnetRing._verts _ATOL m = Ok v ->
                               MagnetRing.patch _ATOL m = Raise TypeError).
    { intros v Ev. unfold MagnetRing.patch. rewrite Ev. simpl.
      unfold MagnetRing._verts in Ev.
      destruct (MagnetRing.rz_pts _ATOL m) as [pts|e]; [|discriminate].
      simpl in Ev. apply index_rows_length in Ev.
      unfold patches.new_Path. rewrite Ev. simpl.
      rewrite Hkw. reflexivity. }
    assert (Hraises : raises (MagnetRing.patch _ATOL m)).
    { destruct (MagnetRing._verts _ATOL m) as [v|e] eqn:Ev.
      - exists TypeError. apply (Hverts v). reflexivity.
      - exists e. unfold MagnetRing.patch. rewrite Ev. reflexivity. }
    split; [exact Hraises|]. split; [|exact Hverts].
    destruct Hraises as [e He]. exists e. simpl. rewrite He. reflexivity.
  - intros r0 z0 width height mu_hat weights current fu m' E.
    unfold MagnetRing.__init__, CurrentFilamentSet.__init__ in E.
    simpl in E. injection E as <-. reflexivity.
  - intros kw. reflexivity.
  - intros p E. unfold RectangularCoil.patch in E.
    destruct (RectangularCoil._verts c) as [v|e]; [|discriminate].
    simpl in E.
    destruct (patches.new_Path v RectangularCoil._codes) as [q|e];
      [|discriminate].
    simpl in E. injection E as <-. reflexivity.
Qed.

Lemma magnet_ring_patch_raises_witness :
  FilamentSet.patch_kw (FilamentSet.MR example_magnet) = None /\
  raises (MagnetRing.patch 0 example_magnet).
Proof.
  split; [reflexivity|].
  apply (magnet_ring_patch_raises 0 example_magnet example_coil).
  reflexivity.
Defined.

(** ** Grids *)

Lemma set_last_snoc (l : list R) (x v : R) :
  np.set_last (l ++ [x]) v = l ++ [v].
Proof.
  induction l as [|a tl IH]; [reflexivity|].
  simpl. rewrite IH. destruct tl; reflexivity.
Qed.

Lemma INR_pred_Z (n : Z) :
  (1 <= n)%Z -> INR (Z.to_nat n - 1) = IZR (n - 1).
Proof.
  intros Hn. rewrite INR_IZR_INZ. f_equal. lia.
Qed.

Lemma evenly_spaced_length (c d : R) (n : Z) :
  length (evenly_spaced c d n) = Z.to_nat n.
Proof. unfold evenly_spaced. now rewrite length_map, length_seq. Qed.

Lemma evenly_spaced_nth (c d : R) (n : Z) (i : nat) :
  (i < Z.to_nat n)%nat ->
  nth i (evenly_spaced c d n) 0 = c - d * IZR (n - 1) / 2 + INR i * d.
Proof.
  intros Hi. unfold evenly_spaced.
  set (f := fun i : nat => c - d * IZR (n - 1) / 2 + INR i * d).
  rewrite (nth_indep _ 0 (f 0%nat))
    by now rewrite length_map, length_seq.
  rewrite map_nth, seq_nth by assumption. reflexivity.
Qed.

Lemma evenly_spaced_snoc (c d : R) (n : Z) :
  (1 <= n)%Z ->
  evenly_spaced c d n
  = map (fun i : nat => c - d * IZR (n - 1) / 2 + INR i * d)
        (seq 0 (Z.to_nat n - 1))
    ++ [c + d * IZR (n - 1) / 2].
Proof.
  intros Hn. unfold evenly_spaced.
  replace (Z.to_nat n) with (S (Z.to_nat n - 1)) at 1 by lia.
  rewrite seq_S, map_app. simpl. rewrite INR_pred_Z by assumption.
  do 2 f_equal. field.
Qed.

(** [np.linspace] over the interval of the claim gives the evenly spaced
    values. *)
Lemma linspace_evenly_spaced (c d : R) (n : Z) :
  (1 <= n)%Z ->
  np.linspace (c - d * IZR (n - 1) / 2) (c + d * IZR (n - 1) / 2) n
  = Ok (evenly_spaced c d n).
Proof.
  intros Hn. unfold np.linspace.
  destruct (Z.ltb_spec n 0); [lia|]. f_equal.
  destruct (Z.ltb_spec 1 n) as [Hgt|Hle].
  - destruct (Z.ltb_spec 0 (n - 1)); [|lia].
    assert (Hd : IZR (n - 1) <> 0) by (apply not_0_IZR; lia).
    rewrite (map_ext _ (fun i : nat => c - d * IZR (n - 1) / 2 + INR i * d)).
    2:{ intros i. field. exact Hd. }
    fold (evenly_spaced c d n).
    rewrite (evenly_spaced_snoc c d Hn). apply set_last_snoc.
  - assert (n = 1%Z) by lia. subst n. simpl.
    unfold evenly_spaced. simpl. f_equal. lra.
Qed.

Lemma linspace_ok (a b : R) (n : Z) (l : list R) :
  np.linspace a b n = Ok l -> (0 <= n)%Z /\ length l = Z.to_nat n.
Proof.
  unfold np.linspace. destruct (Z.ltb_spec n 0); [discriminate|].
  intros E. injection E as <-. split; [assumption|].
  destruct (Z.ltb_spec 1 n).
  - replace (Z.to_nat n) with (S (Z.to_nat n - 1)) by lia.
    rewrite seq_S, map_app. simpl. rewrite set_last_snoc.
    rewrite !length_app, length_map, length_seq. simpl. lia.
  - now rewrite length_map, length_seq.
Qed.

Lemma cartesian_length (rs zs : list R) :
  length (cartesian rs zs) = (length rs * length zs)%nat.
Proof.
  unfold cartesian. induction rs as [|r tl IH]; [reflexivity|].
  cbn [flat_map]. rewrite length_app, length_map.
  cbn [length Nat.mul]. f_equal. exact IH.
Qed.

Lemma array_nonempty (l : list point) :
  l <> [] -> np.array l = ArrN2 l.
Proof. destruct l; [congruence|reflexivity]. Qed.

Lemma grid_length (r0 z0 : R) (nr nz : Z) (dr dz : R) :
  (0 <= nr)%Z -> (0 <= nz)%Z -> len (grid r0 z0 nr nz dr dz) = (nr * nz)%Z.
Proof.
  intros Hr Hz. unfold len, grid.
  rewrite cartesian_length, !evenly_spaced_length. lia.
Qed.

(** What [rz_pts] of a RectangularCoil with at least one filament each way
    evaluates to. *)
Lemma rectangular_coil_rz_pts_grid (self : RectangularCoil.t) :
  (1 <= RectangularCoil.nr self)%Z ->
  (1 <= RectangularCoil.nz self)%Z ->
  let g := grid (RectangularCoil.r0 self) (RectangularCoil.z0 self)
             (RectangularCoil.nr self) (RectangularCoil.nz self)
             (RectangularCoil.dr self) (RectangularCoil.dz self) in
  RectangularCoil.rz_pts self
  = Ok (ArrN2
          (if np.isclose (RectangularCoil.angle self) 0
                np.default_rtol np.default_atol
           then g
           else transforms.rotate_rows g (RectangularCoil.angle self)
                  (RectangularCoil.r0 self, RectangularCoil.z0 self))).
Proof.
  intros Hr Hz g. unfold RectangularCoil.rz_pts.
  cbn [fst snd RectangularCoil.centroid].
  rewrite !linspace_evenly_spaced by assumption. cbn [bind].
  fold (cartesian
          (evenly_spaced (RectangularCoil.r0 self) (RectangularCoil.dr self)
             (RectangularCoil.nr self))
          (evenly_spaced (RectangularCoil.z0 self) (RectangularCoil.dz self)
             (RectangularCoil.nz self))).
  fold (grid (RectangularCoil.r0 self) (RectangularCoil.z0 self)
          (RectangularCoil.nr self) (RectangularCoil.nz self)
          (RectangularCoil.dr self) (RectangularCoil.dz self)).
  fold g.
  assert (Hg : g <> []).
  { intros E. apply (f_equal (@length point)) in E.
    unfold g, grid in E. rewrite cartesian_length, !evenly_spaced_length in E.
    simpl in E. nia. }
  rewrite (array_nonempty Hg).
  destruct (np.isclose _ _ _ _); reflexivity.
Qed.

Lemma evenly_spaced_spans (c d : R) (n : Z) :
  (1 <= n)%Z ->
  spans_evenly (evenly_spaced c d n)
    (c - d * IZR (n - 1) / 2) (c + d * IZR (n - 1) / 2) n.
Proof.
  intros Hn. unfold spans_evenly.
  rewrite evenly_spaced_length. split; [lia|]. split; [|split].
  - rewrite evenly_spaced_nth by lia. simpl. lra.
  - rewrite evenly_spaced_nth by lia. rewrite INR_pred_Z by assumption. lra.
  - intros i j Hi Hj. rewrite !evenly_spaced_nth by lia.
    rewrite !S_INR. lra.
Qed.

Lemma cartesian_nth_error (rs zs : list R) (i j : nat) :
  (i < length rs)%nat -> (j < length zs)%nat ->
  nth_error (cartesian rs zs) (i * length zs + j)
  = Some (nth i rs 0, nth j zs 0).
Proof.
  unfold cartesian. revert i. induction rs as [|r tl IH]; intros i Hi Hj.
  - simpl in Hi. lia.
  - cbn [flat_map]. destruct i as [|i].
    + simpl. rewrite nth_error_app1 by now rewrite length_map.
      rewrite nth_error_map.
      rewrite (nth_error_nth' zs 0 Hj). reflexivity.
    + rewrite nth_error_app2 by (rewrite length_map; simpl; lia).
      rewrite length_map.
      replace (S i * length zs + j - length zs)%nat
        with (i * length zs + j)%nat by (simpl; lia).
      simpl in Hi. apply IH; [lia|assumption].
Qed.

Lemma isclose_zero (rtol atol : R) :
  0 <= atol -> np.isclose 0 0 rtol atol = true.
Proof.
  intros Ha. unfold np.isclose.
  destruct (Rle_dec (Rabs (0 - 0)) (atol + rtol * Rabs 0)) as [|Hn];
    [reflexivity|].
  exfalso. apply Hn. rewrite Rminus_0_r, Rabs_R0. lra.
Qed.

Lemma example_coil_rz_pts :
  RectangularCoil.rz_pts example_coil
  = Ok (ArrN2 [(0.95, -0.05); (0.95, 0.05); (1.05, -0.05); (1.05, 0.05)]).
Proof.
  rewrite rectangular_coil_rz_pts_grid by (simpl; lia).
  cbv zeta. simpl RectangularCoil.angle.
  rewrite isclose_zero by (unfold np.default_atol; lra).
  unfold grid, evenly_spaced, cartesian. simpl.
  repeat f_equal; lra.
Qed.

(** C2.  For a RectangularCoil with at least one filament each way, the R
    values are [nr] evenly spaced values from [r0 - dr*(nr-1)/2] to
    [r0 + dr*(nr-1)/2], the Z values are [nz] evenly spaced values over the
    analogous range, the grid holds [nr*nz] points with the point of R
    index [i] and Z index [j] at position [i*nz + j] (R-major, Z fastest),
    and [rz_pts] is that grid, rotated about the centroid by [angle]
    unless [angle] is close to 0.  In particular, for [nr = 2], [nz = 2],
    [dr = 0.1], [dz = 0.1], [r0 = 1.0], [z0 = 0.0], [angle = 0] it is
    (0.95, -0.05), (0.95, 0.05), (1.05, -0.05), (1.05, 0.05) in this
    order. *)
Theorem rectangular_coil_rz_pts (self : RectangularCoil.t) :
  (1 <= RectangularCoil.nr self)%Z ->
  (1 <= RectangularCoil.nz self)%Z ->
  let r0 := RectangularCoil.r0 self in
  let z0 := RectangularCoil.z0 self in
  let nr := RectangularCoil.nr self in
  let nz := RectangularCoil.nz self in
  let dr := RectangularCoil.dr self in
  let dz := RectangularCoil.dz self in
  let angle := RectangularCoil.angle self in
  let rs := evenly_spaced r0 dr nr in
  let zs := evenly_spaced z0 dz nz in
  let g := cartesian rs zs in
  spans_evenly rs (r0 - dr * IZR (nr - 1) / 2) (r0 + dr * IZR (nr - 1) / 2)
    nr /\
  spans_evenly zs (z0 - dz * IZR (nz - 1) / 2) (z0 + dz * IZR (nz - 1) / 2)
    nz /\
  len g = RectangularCoil.npts self /\
  (forall i j, (i < Z.to_nat nr)%nat -> (j < Z.to_nat nz)%nat ->
               nth_error g (i * Z.to_nat nz + j)
               = Some (nth i rs 0, nth j zs 0)) /\
  RectangularCoil.rz_pts self
  = Ok (ArrN2 (if np.isclose angle 0 np.default_rtol np.default_atol
               then g
               else transforms.rotate_rows g angle (r0, z0))) /\
  RectangularCoil.rz_pts example_coil
  = Ok (ArrN2 [(0.95, -0.05); (0.95, 0.05); (1.05, -0.05); (1.05, 0.05)]).
Proof.
  intros Hr Hz r0 z0 nr nz dr dz angle rs zs g.
  split; [apply evenly_spaced_spans; assumption|].
  split; [apply evenly_spaced_spans; assumption|].
  split; [apply grid_length; lia|].
  split.
  - intros i j Hi Hj.
    rewrite <- (evenly_spaced_length z0 dz nz). fold zs.
    apply cartesian_nth_error.
    + unfold rs. now rewrite evenly_spaced_length.
    + unfold zs. now rewrite evenly_spaced_length.
  - split; [apply (rectangular_coil_rz_pts_grid self Hr Hz)|].
    exact example_coil_rz_pts.
Qed.

Lemma rectangular_coil_rz_pts_witness :
  (1 <= RectangularCoil.nr example_coil)%Z /\
  (1 <= RectangularCoil.nz example_coil)%Z /\
  RectangularCoil.rz_pts example_coil
  = Ok (ArrN2 (cartesian (evenly_spaced 1 0.1 2) (evenly_spaced 0 0.1 2))) /\
  RectangularCoil.rz_pts example_coil
  = Ok (ArrN2 [(0.95, -0.05); (0.95, 0.05); (1.05, -0.05); (1.05, 0.05)]).
Proof.
  assert (Hr : (1 <= RectangularCoil.nr example_coil)%Z) by (simpl; lia).
  assert (Hz : (1 <= RectangularCoil.nz example_coil)%Z) by (simpl; lia).
  split; [exact Hr|]. split; [exact Hz|].
  destruct (rectangular_coil_rz_pts example_coil Hr Hz)
    as (_ & _ & _ & _ & E & Ex).
  split; [|exact Ex].
  rewrite E. simpl RectangularCoil.angle.
  rewrite isclose_zero by (unfold np.default_atol; lra).
  reflexivity.
Defined.

(** ** Rigid motions *)

Lemma rotation_unit (angle : R) :
  let m := rotation angle in
  fst (fst m) * fst (fst m) + fst (snd m) * fst (snd m) = 1 /\
  snd (fst m) = - fst (snd m) /\
  snd (snd m) = fst (fst m).
Proof.
  unfold rotation. cbn [fst snd]. repeat split.
  pose proof (sin2_cos2 (PI * angle / 180)) as H. unfold Rsqr in H. lra.
Qed.

Lemma rotation_neg (angle : R) :
  rotation (- angle)
  = ((fst (fst (rotation angle)), fst (snd (rotation angle))),
     (- fst (snd (rotation angle)), fst (fst (rotation angle)))).
Proof.
  unfold rotation. cbn [fst snd].
  replace (PI * - angle / 180) with (- (PI * angle / 180)) by lra.
  rewrite cos_neg, sin_neg, Ropp_involutive. reflexivity.
Qed.

(** Turning back by the opposite angle about the same pivot. *)
Lemma rotate_about_inverse (angle : R) (pivot p : point) :
  rotate_about (- angle) pivot (rotate_about angle pivot p) = p.
Proof.
  unfold rotate_about. rewrite rotation_neg.
  destruct (rotation_unit angle) as (Hu & Hs & Hc).
  destruct (rotation angle) as [[c s'] [s c']]. cbn [fst snd] in *. subst.
  destruct p as [x y], pivot as [px py].
  unfold add_pt, sub_pt, matmul. cbn [fst snd].
  f_equal.
  - replace ((((x - px) * c + (y - py) * s + px - px) * c
              + ((x - px) * - s + (y - py) * c + py - py) * - s + px))
      with ((x - px) * (c * c + s * s) + px) by ring.
    rewrite Hu. ring.
  - replace ((((x - px) * c + (y - py) * s + px - px) * s
              + ((x - px) * - s + (y - py) * c + py - py) * c + py))
      with ((y - py) * (c * c + s * s) + py) by ring.
    rewrite Hu. ring.
Qed.

Lemma translate_inverse (vector p : point) :
  add_pt (add_pt p vector) (neg_pt vector) = p.
Proof.
  destruct p, vector. unfold add_pt, neg_pt. cbn [fst snd]. f_equal; ring.
Qed.

Lemma dist_translate (vector p q : point) :
  dist (add_pt p vector) (add_pt q vector) = dist p q.
Proof.
  destruct p, q, vector. unfold dist, add_pt. cbn [fst snd].
  f_equal. ring.
Qed.

Lemma dist_rotate_about (angle : R) (pivot p q : point) :
  dist (rotate_about angle pivot p) (rotate_about angle pivot q) = dist p q.
Proof.
  unfold rotate_about.
  destruct (rotation_unit angle) as (Hu & Hs & Hc).
  destruct (rotation angle) as [[c s'] [s c']]. cbn [fst snd] in *. subst.
  destruct p as [x y], q as [u v], pivot as [px py].
  unfold dist, add_pt, sub_pt, matmul. cbn [fst snd]. f_equal.
  replace (((x - px) * c + (y - py) * s + px
            - ((u - px) * c + (v - py) * s + px))
           * ((x - px) * c + (y - py) * s + px
              - ((u - px) * c + (v - py) * s + px))
           + ((x - px) * - s + (y - py) * c + py
              - ((u - px) * - s + (v - py) * c + py))
             * ((x - px) * - s + (y - py) * c + py
                - ((u - px) * - s + (v - py) * c + py)))
    with (((x - u) * (x - u) + (y - v) * (y - v)) * (c * c + s * s)) by ring.
  rewrite Hu. ring.
Qed.

Lemma rectangular_coil_rz_pts_ext (c c' : RectangularCoil.t) :
  RectangularCoil.centroid c = RectangularCoil.centroid c' ->
  RectangularCoil.angle c = RectangularCoil.angle c' ->
  RectangularCoil.nr c = RectangularCoil.nr c' ->
  RectangularCoil.nz c = RectangularCoil.nz c' ->
  RectangularCoil.dr c = RectangularCoil.dr c' ->
  RectangularCoil.dz c = RectangularCoil.dz c' ->
  RectangularCoil.rz_pts c = RectangularCoil.rz_pts c'.
Proof.
  unfold RectangularCoil.rz_pts. intros -> -> -> -> -> ->. reflexivity.
Qed.

Lemma magnet_ring_rz_pts_ext (_ATOL : R) (m m' : MagnetRing.t) :
  MagnetRing.centroid m = MagnetRing.centroid m' ->
  MagnetRing.mu_hat m = MagnetRing.mu_hat m' ->
  MagnetRing.npts m = MagnetRing.npts m' ->
  MagnetRing.width m = MagnetRing.width m' ->
  MagnetRing.height m = MagnetRing.height m' ->
  MagnetRing.rz_pts _ATOL m = MagnetRing.rz_pts _ATOL m'.
Proof.
  unfold MagnetRing.rz_pts. intros -> -> -> -> ->. reflexivity.
Qed.

(** C5.  On every filament set, [translate(v)] then [translate(-v)], and
    [rotate(a, pivot=p)] then [rotate(-a, pivot=p)], give back the
    [rz_pts] there was before: in exact arithmetic the round trip is the
    identity, which is what remains of "within floating-point tolerance"
    once rounding is idealised away. *)
Theorem motion_round_trip (_ATOL : R) (self : FilamentSet.t)
  (vector pivot : point) (angle : R) :
  FilamentSet.rz_pts _ATOL
    (FilamentSet.translate (FilamentSet.translate self vector)
       (neg_pt vector))
  = FilamentSet.rz_pts _ATOL self /\
  FilamentSet.rz_pts _ATOL
    (FilamentSet.rotate (FilamentSet.rotate self angle pivot)
       (- angle) pivot)
  = FilamentSet.rz_pts _ATOL self.
Proof.
  destruct self as [s|c|m]; split; cbn [FilamentSet.translate
    FilamentSet.rotate FilamentSet.rz_pts].
  - unfold ArbitraryPoints.translate, ArbitraryPoints.rz_pts. simpl.
    rewrite map_map.
    rewrite (map_ext _ (fun p => p)) by (intros p; apply translate_inverse).
    now rewrite map_id.
  - unfold ArbitraryPoints.rotate, ArbitraryPoints.rz_pts. simpl.
    rewrite map_map.
    rewrite (map_ext _ (fun p => p))
      by (intros p; apply (rotate_about_inverse angle pivot p)).
    now rewrite map_id.
  - apply rectangular_coil_rz_pts_ext; try reflexivity.
    exact (translate_inverse vector (RectangularCoil.centroid c)).
  - apply rectangular_coil_rz_pts_ext; try reflexivity.
    + exact (rotate_about_inverse angle pivot (RectangularCoil.centroid c)).
    + unfold RectangularCoil.rotate, RectangularCoil.angle. simpl.
      unfold RectangularCoil.angle. ring.
  - apply magnet_ring_rz_pts_ext; try reflexivity.
    exact (translate_inverse vector (MagnetRing.centroid m)).
  - apply magnet_ring_rz_pts_ext; try reflexivity.
    + exact (rotate_about_inverse angle pivot (MagnetRing.centroid m)).
    + unfold MagnetRing.rotate, MagnetRing.mu_hat. simpl.
      unfold MagnetRing.mu_hat. ring.
Qed.

(** ** Rigidity *)

Lemma dist_shift (c p q : point) :
  dist (add_pt c p) (add_pt c q) = dist p q.
Proof.
  destruct p, q, c. unfold dist, add_pt. cbn [fst snd]. f_equal. ring.
Qed.

Lemma dist_place (c : point) (turn : option R) (p q : point) :
  dist (place c turn p) (place c turn q) = dist p q.
Proof.
  unfold place. destruct turn as [angle|].
  - rewrite dist_rotate_about. apply dist_shift.
  - apply dist_shift.
Qed.

Lemma nth_error_map_Some {A B : Type} (f : A -> B) (l : list A) (i : nat)
  (y : B) :
  nth_error (map f l) i = Some y ->
  exists x, nth_error l i = Some x /\ y = f x.
Proof.
  rewrite nth_error_map. destruct (nth_error l i) as [x|]; simpl.
  - intros E. injection E as <-. eauto.
  - discriminate.
Qed.

Lemma same_distances_maps (f g : point -> point) (l : list point) :
  (forall p q, dist (f p) (f q) = dist (g p) (g q)) ->
  same_distances (map f l) (map g l).
Proof.
  intros Hfg. split; [now rewrite !length_map|].
  intros i j p q p' q' Hp Hq Hp' Hq'.
  apply nth_error_map_Some in Hp as (x & Hx & ->).
  apply nth_error_map_Some in Hq as (y & Hy & ->).
  apply nth_error_map_Some in Hp' as (x' & Hx' & ->).
  apply nth_error_map_Some in Hq' as (y' & Hy' & ->).
  assert (x' = x) by congruence. assert (y' = y) by congruence.
  subst. apply Hfg.
Qed.

Lemma same_distances_map (f : point -> point) (l : list point) :
  (forall p q, dist (f p) (f q) = dist p q) ->
  same_distances l (map f l).
Proof.
  intros Hf. rewrite <- (map_id l) at 1.
  apply same_distances_maps. intros p q. now rewrite Hf.
Qed.

Lemma same_distances_refl (l : list point) : same_distances l l.
Proof.
  split; [reflexivity|]. intros i j p q p' q' Hp Hq Hp' Hq'. congruence.
Qed.

Lemma same_distances_trans (a b c : list point) :
  same_distances a b -> same_distances b c -> same_distances a c.
Proof.
  intros [Lab Hab] [Lbc Hbc]. split; [congruence|].
  intros i j p q p' q' Hp Hq Hp' Hq'.
  assert (Hi : (i < length b)%nat).
  { rewrite <- Lab. apply nth_error_Some. congruence. }
  assert (Hj : (j < length b)%nat).
  { rewrite <- Lab. apply nth_error_Some. congruence. }
  destruct (nth_error b i) as [u|] eqn:Eu;
    [|apply nth_error_Some in Hi; congruence].
  destruct (nth_error b j) as [v|] eqn:Ev;
    [|apply nth_error_Some in Hj; congruence].
  rewrite (Hab i j p q u v) by assumption.
  apply (Hbc i j u v p' q'); assumption.
Qed.

Lemma same_distances_placed (c c' : point) (t t' : option R)
  (l : list point) :
  same_distances (map (place c t) l) (map (place c' t') l).
Proof.
  apply same_distances_maps. intros p q. now rewrite !dist_place.
Qed.

(** *** The grid of a RectangularCoil about its centroid *)

Lemma evenly_spaced_shift (c d : R) (n : Z) :
  evenly_spaced c d n = map (fun x => c + x) (evenly_spaced 0 d n).
Proof.
  unfold evenly_spaced. rewrite map_map. apply map_ext. intros i. ring.
Qed.

Lemma cartesian_map (f g : R -> R) (rs zs : list R) :
  cartesian (map f rs) (map g zs)
  = map (fun p : point => (f (fst p), g (snd p))) (cartesian rs zs).
Proof.
  unfold cartesian. induction rs as [|r tl IH]; [reflexivity|].
  cbn [map flat_map]. rewrite map_app, !map_map. f_equal. exact IH.
Qed.

Lemma grid_shift (r0 z0 : R) (nr nz : Z) (dr dz : R) :
  grid r0 z0 nr nz dr dz = map (add_pt (r0, z0)) (grid 0 0 nr nz dr dz).
Proof.
  unfold grid. rewrite (evenly_spaced_shift r0), (evenly_spaced_shift z0).
  rewrite cartesian_map. reflexivity.
Qed.

Lemma rectangular_coil_rz_pts_placed (c : RectangularCoil.t) :
  (1 <= RectangularCoil.nr c)%Z ->
  (1 <= RectangularCoil.nz c)%Z ->
  RectangularCoil.rz_pts c
  = Ok (ArrN2
          (map (place (RectangularCoil.centroid c)
                  (turn_of (np.isclose (RectangularCoil.angle c) 0
                              np.default_rtol np.default_atol)
                     (RectangularCoil.angle c)))
               (grid 0 0 (RectangularCoil.nr c) (RectangularCoil.nz c)
                  (RectangularCoil.dr c) (RectangularCoil.dz c)))).
Proof.
  intros Hr Hz. rewrite (rectangular_coil_rz_pts_grid c Hr Hz).
  cbv zeta. rewrite grid_shift. unfold RectangularCoil.centroid.
  destruct (np.isclose _ _ _ _); cbn [turn_of]; do 2 f_equal.
  unfold transforms.rotate_rows. rewrite map_map. reflexivity.
Qed.

Lemma cartesian_nil_r (rs : list R) : cartesian rs [] = [].
Proof.
  unfold cartesian. induction rs as [|r tl IH]; [reflexivity|exact IH].
Qed.

(** [rz_pts] of a RectangularCoil is an N x 2 array only if there is at
    least one filament each way. *)
Lemma rectangular_coil_rz_pts_inv (c : RectangularCoil.t)
  (rows : list point) :
  RectangularCoil.rz_pts c = Ok (ArrN2 rows) ->
  (1 <= RectangularCoil.nr c)%Z /\ (1 <= RectangularCoil.nz c)%Z.
Proof.
  unfold RectangularCoil.rz_pts. cbn [fst snd RectangularCoil.centroid].
  destruct (np.linspace _ _ (RectangularCoil.nr c)) as [r|e] eqn:Er;
    [|discriminate].
  destruct (np.linspace _ _ (RectangularCoil.nz c)) as [z|e] eqn:Ez;
    [|discriminate].
  cbn [bind]. fold (cartesian r z).
  apply linspace_ok in Er as [Hr Lr]. apply linspace_ok in Ez as [Hz Lz].
  intros E.
  assert (Hne : cartesian r z <> []).
  { intros Hnil. rewrite Hnil in E. cbn [np.array] in E.
    destruct (np.isclose _ _ _ _); discriminate E. }
  destruct r as [|r0 r]; [now elim Hne|].
  destruct z as [|z0 z]; [now elim Hne; apply cartesian_nil_r|].
  simpl in Lr, Lz. lia.
Qed.

Lemma broadcast_to_map {A B : Type} (f : A -> B) (l : list A) (k : nat) :
  np.broadcast_to (map f l) k
  = x <- np.broadcast_to l k ;; Ok (map f x).
Proof.
  unfold np.broadcast_to. rewrite length_map.
  destruct (length l =? k)%nat; [reflexivity|].
  destruct l as [|a [|b tl]]; cbn [map bind]; try reflexivity.
  now rewrite map_repeat.
Qed.

Lemma combine_map {A B C D : Type} (f : A -> C) (g : B -> D)
  (l : list A) (l' : list B) :
  combine (map f l) (map g l')
  = map (fun p => (f (fst p), g (snd p))) (combine l l').
Proof.
  revert l'. induction l as [|a tl IH]; intros [|b tl']; try reflexivity.
  cbn [map combine fst snd]. f_equal. apply IH.
Qed.

Lemma magnet_ring_rz_pts_placed (_ATOL : R) (m : MagnetRing.t) :
  MagnetRing.rz_pts _ATOL m
  = l <- magnet_sheets (MagnetRing.npts m) (MagnetRing.width m)
          (MagnetRing.height m) ;;
    Ok (ArrN2
          (map (place (MagnetRing.centroid m)
                  (turn_of (np.isclose (MagnetRing.mu_hat m) 0 0 _ATOL)
                     (MagnetRing.mu_hat m)))
               l)).
Proof.
  unfold MagnetRing.rz_pts, magnet_sheets.
  cbn [fst snd MagnetRing.centroid].
  destruct (np.ones (MagnetRing.npts m / 2)) as [ones|e];
    [|reflexivity].
  cbn [bind].
  destruct (np.linspace _ _ (MagnetRing.npts m / 2)) as [zspace|e];
    [|reflexivity].
  cbn [bind].
  set (rspace := map (fun x : R => MagnetRing.width m / 2 * x) ones).
  replace (map (fun x : R => MagnetRing.r0 m - x) rspace)
    with (map (fun x : R => MagnetRing.r0 m + x) (map Ropp rspace))
    by (rewrite map_map; apply map_ext; intros x; ring).
  rewrite !broadcast_to_map.
  destruct (np.broadcast_to rspace (Nat.min _ _)) as [r_lo|e];
    [|reflexivity].
  cbn [bind].
  destruct (np.broadcast_to rspace (_ - _)) as [r_hi|e]; [|reflexivity].
  cbn [bind].
  destruct (np.broadcast_to zspace (Nat.min _ _)) as [z_lo|e];
    [|reflexivity].
  cbn [bind].
  destruct (np.broadcast_to zspace (_ - _)) as [z_hi|e]; [|reflexivity].
  cbn [bind].
  rewrite <- !map_app, combine_map.
  destruct (np.isclose _ _ _ _); cbn [turn_of transforms.rotate]; do 2 f_equal.
  unfold transforms.rotate_rows. rewrite map_map. reflexivity.
Qed.

(** One call of [translate] or [rotate]. *)
Lemma call_keeps_distances (_ATOL : R) (self : FilamentSet.t)
  (m : FilamentSet.motion) (rows : list point) :
  FilamentSet.rz_pts _ATOL self = Ok (ArrN2 rows) ->
  exists rows',
    FilamentSet.rz_pts _ATOL (FilamentSet.call self m) = Ok (ArrN2 rows') /\
    FilamentSet.npts (FilamentSet.call self m) = FilamentSet.npts self /\
    same_distances rows rows'.
Proof.
  intros H. destruct self as [s|c|mr].
  - cbn [FilamentSet.rz_pts] in H. unfold ArbitraryPoints.rz_pts in H.
    injection H as <-.
    destruct m as [vector|angle pivot].
    + exists (map (fun p => add_pt p vector) (ArbitraryPoints._rz_pts s)).
      split; [reflexivity|]. split.
      * cbn. unfold ArbitraryPoints.npts. cbn. now rewrite length_map.
      * apply same_distances_map. intros p q. apply dist_translate.
    + exists (map (rotate_about angle pivot) (ArbitraryPoints._rz_pts s)).
      split; [reflexivity|]. split.
      * cbn. unfold ArbitraryPoints.npts. cbn. now rewrite length_map.
      * apply same_distances_map. intros p q. apply dist_rotate_about.
  - cbn [FilamentSet.rz_pts] in H.
    destruct (rectangular_coil_rz_pts_inv c H) as [Hr Hz].
    rewrite (rectangular_coil_rz_pts_placed c Hr Hz) in H.
    injection H as <-.
    destruct m as [vector|angle pivot]; cbn [FilamentSet.call
      FilamentSet.translate FilamentSet.rotate FilamentSet.rz_pts].
    + rewrite (rectangular_coil_rz_pts_placed
                 (RectangularCoil.translate c vector) Hr Hz).
      eexists. split; [reflexivity|]. split; [reflexivity|].
      apply same_distances_placed.
    + rewrite (rectangular_coil_rz_pts_placed
                 (RectangularCoil.rotate c angle pivot) Hr Hz).
      eexists. split; [reflexivity|]. split; [reflexivity|].
      apply same_distances_placed.
  - cbn [FilamentSet.rz_pts] in H.
    rewrite magnet_ring_rz_pts_placed in H.
    destruct (magnet_sheets (MagnetRing.npts mr) (MagnetRing.width mr)
                (MagnetRing.height mr)) as [l|e] eqn:El; [|discriminate].
    cbn [bind] in H. injection H as <-.
    destruct m as [vector|angle pivot]; cbn [FilamentSet.call
      FilamentSet.translate FilamentSet.rotate FilamentSet.rz_pts];
      rewrite magnet_ring_rz_pts_placed.
    + change (MagnetRing.npts (MagnetRing.translate mr vector))
        with (MagnetRing.npts mr).
      change (MagnetRing.width (MagnetRing.translate mr vector))
        with (MagnetRing.width mr).
      change (MagnetRing.height (MagnetRing.translate mr vector))
        with (MagnetRing.height mr).
      rewrite El. cbn [bind].
      eexists. split; [reflexivity|]. split; [reflexivity|].
      apply same_distances_placed.
    + change (MagnetRing.npts (MagnetRing.rotate mr angle pivot))
        with (MagnetRing.npts mr).
      change (MagnetRing.width (MagnetRing.rotate mr angle pivot))
        with (MagnetRing.width mr).
      change (MagnetRing.height (MagnetRing.rotate mr angle pivot))
        with (MagnetRing.height mr).
      rewrite El. cbn [bind].
      eexists. split; [reflexivity|]. split; [reflexivity|].
      apply same_distances_placed.
Qed.

(** C6.  On a filament set whose [rz_pts] is an N x 2 array, after any
    finite sequence of [translate] and [rotate] calls [rz_pts] is again an
    N x 2 array, [npts] is what it was, and the distance between the
    filaments of any two positions is what it was: exactly, rounding being
    idealised away. *)
Theorem motions_keep_npts_and_distances (_ATOL : R) (self : FilamentSet.t)
  (ms : list FilamentSet.motion) (rows : list point) :
  FilamentSet.rz_pts _ATOL self = Ok (ArrN2 rows) ->
  exists rows',
    FilamentSet.rz_pts _ATOL (FilamentSet.calls self ms) = Ok (ArrN2 rows') /\
    FilamentSet.npts (FilamentSet.calls self ms) = FilamentSet.npts self /\
    same_distances rows rows'.
Proof.
  revert self rows. induction ms as [|m ms IH]; intros self rows H.
  - exists rows. split; [exact H|]. split; [reflexivity|].
    apply same_distances_refl.
  - destruct (call_keeps_distances _ATOL self m H) as (r1 & H1 & N1 & D1).
    destruct (IH _ _ H1) as (r2 & H2 & N2 & D2).
    exists r2. cbn [FilamentSet.calls fold_left].
    split; [exact H2|]. split.
    + unfold FilamentSet.calls in N2. rewrite N2. exact N1.
    + apply (same_distances_trans D1 D2).
Qed.

Lemma motions_keep_npts_and_distances_witness :
  FilamentSet.rz_pts 0 (FilamentSet.RC example_coil)
  = Ok (ArrN2 [(0.95, -0.05); (0.95, 0.05); (1.05, -0.05); (1.05, 0.05)]) /\
  exists rows',
    FilamentSet.rz_pts 0
      (FilamentSet.calls (FilamentSet.RC example_coil)
         [FilamentSet.Translate (0.5, 0.25); FilamentSet.Rotate 30 (0, 0)])
    = Ok (ArrN2 rows') /\
    FilamentSet.npts
      (FilamentSet.calls (FilamentSet.RC example_coil)
         [FilamentSet.Translate (0.5, 0.25); FilamentSet.Rotate 30 (0, 0)])
    = FilamentSet.npts (FilamentSet.RC example_coil) /\
    same_distances
      [(0.95, -0.05); (0.95, 0.05); (1.05, -0.05); (1.05, 0.05)] rows'.
Proof.
  split; [exact example_coil_rz_pts|].
  apply (motions_keep_npts_and_distances 0 (FilamentSet.RC example_coil)
           [FilamentSet.Translate (0.5, 0.25); FilamentSet.Rotate 30 (0, 0)]
           example_coil_rz_pts).
Defined.

(** *** Instances of the data model *)

Lemma broadcast_to_same {A : Type} (l : list A) (k : nat) :
  length l = k -> np.broadcast_to l k = Ok l.
Proof. intros <-. unfold np.broadcast_to. now rewrite Nat.eqb_refl. Qed.

Lemma magnet_sheets_even (npts : Z) (width height : R) :
  (0 <= npts)%Z -> Z.even npts = true ->
  exists l, magnet_sheets npts width height = Ok l /\ len l = npts.
Proof.
  intros Hn He. unfold magnet_sheets.
  assert (Hh : (0 <= npts / 2)%Z) by (apply Z.div_pos; lia).
  assert (H2 : npts = (2 * (npts / 2))%Z).
  { apply Z.even_spec in He as [k Hk]. rewrite Hk at 2.
    rewrite (Z.mul_comm 2 k), Z.div_mul by lia. lia. }
  unfold np.ones. destruct (Z.ltb_spec (npts / 2) 0); [lia|]. cbn [bind].
  destruct (np.linspace (- (height / 2)) (height / 2) (npts / 2))
    as [zspace|e] eqn:Ez.
  2:{ unfold np.linspace in Ez.
      destruct (Z.ltb_spec (npts / 2) 0); [lia|discriminate]. }
  apply linspace_ok in Ez as [_ Lz]. cbn [bind].
  set (h := Z.to_nat (npts / 2)) in *.
  replace (Nat.min h (Z.to_nat npts)) with h by lia.
  replace (Z.to_nat npts - h)%nat with h by lia.
  set (rspace := map (fun x : R => width / 2 * x) (repeat one h)).
  assert (Lr : length rspace = h)
    by (unfold rspace; now rewrite length_map, repeat_length).
  rewrite (broadcast_to_same (map Ropp rspace))
    by now rewrite length_map.
  rewrite (broadcast_to_same rspace Lr), (broadcast_to_same zspace Lz).
  cbn [bind].
  eexists. split; [reflexivity|].
  unfold len, point.
  rewrite length_combine, !length_app, length_map, Lr, Lz. lia.
Qed.

(** On an instance of the data model [rz_pts] is an array of [npts] rows
    of two. *)
Lemma data_model_rz_pts (_ATOL : R) (self : FilamentSet.t) :
  data_model self ->
  exists rows,
    FilamentSet.rz_pts _ATOL self = Ok (ArrN2 rows) /\
    len rows = FilamentSet.npts self.
Proof.
  destruct self as [s|c|m]; cbn [data_model FilamentSet.rz_pts
    FilamentSet.npts].
  - intros _. eexists. split; reflexivity.
  - intros [Hr Hz]. rewrite (rectangular_coil_rz_pts_placed c Hr Hz).
    eexists. split; [reflexivity|].
    unfold len. rewrite length_map. apply grid_length; lia.
  - intros He. rewrite magnet_ring_rz_pts_placed.
    destruct (magnet_sheets_even (MagnetRing.width m) (MagnetRing.height m)
                (Zle_0_nat _) He) as (l & El & Ll).
    fold (MagnetRing.npts m) in El. rewrite El. cbn [bind].
    eexists. split; [reflexivity|].
    unfold len in *. now rewrite length_map.
Qed.

(** ** Unimplemented operations *)

(** Reading [rz_pts] fails with no other error than ValueError. *)
Lemma rz_pts_raises_value_error (_ATOL : R) (self : FilamentSet.t)
  (e : exn) :
  FilamentSet.rz_pts _ATOL self = Raise e -> e = ValueError.
Proof.
  assert (Hones : forall n e',
             np.ones (F := R) n = Raise e' -> e' = ValueError).
  { intros n e'. unfold np.ones.
    destruct (n <? 0)%Z; [|discriminate]. now intros [= <-]. }
  assert (Hlin : forall a b n e',
             np.linspace a b n = Raise e' -> e' = ValueError).
  { intros a b n e'. unfold np.linspace.
    destruct (n <? 0)%Z; [|discriminate]. now intros [= <-]. }
  assert (Hbc : forall (l : list R) k e',
             np.broadcast_to l k = Raise e' -> e' = ValueError).
  { intros l k e'. unfold np.broadcast_to.
    destruct (length l =? k)%nat; [discriminate|].
    destruct l as [|x [|y tl]]; try discriminate; now intros [= <-]. }
  assert (Hrot : forall a angle pivot e',
             transforms.rotate a angle pivot = Raise e' -> e' = ValueError).
  { intros a angle pivot e'. unfold transforms.rotate.
    destruct a; [|discriminate]. now intros [= <-]. }
  destruct self as [s|c|m]; cbn [FilamentSet.rz_pts].
  - discriminate.
  - unfold RectangularCoil.rz_pts. cbv zeta.
    destruct (np.linspace _ _ (RectangularCoil.nr c)) as [r|e1] eqn:Er;
      cbn [bind].
    2:{ intros [= <-]. apply (Hlin _ _ _ _ Er). }
    destruct (np.linspace _ _ (RectangularCoil.nz c)) as [z|e2] eqn:Ez;
      cbn [bind].
    2:{ intros [= <-]. apply (Hlin _ _ _ _ Ez). }
    destruct (np.isclose _ _ _ _); [discriminate|]. apply Hrot.
  - unfold MagnetRing.rz_pts. cbv zeta.
    destruct (np.ones _) as [ones|e1] eqn:Eo; cbn [bind].
    2:{ intros [= <-]. apply (Hones _ _ Eo). }
    destruct (np.linspace _ _ _) as [zspace|e2] eqn:Ez; cbn [bind].
    2:{ intros [= <-]. apply (Hlin _ _ _ _ Ez). }
    repeat match goal with
           | |- context [bind (np.broadcast_to ?l ?k) _] =>
               let E := fresh "E" in
               destruct (np.broadcast_to l k) eqn:E; cbn [bind];
               [|intros [= <-]; apply (Hbc _ _ _ E)]
           end.
    destruct (np.isclose _ _ _ _); [discriminate|]. apply Hrot.
Qed.

(** C8, as amended.  [clone()] raises NotImplementedError in every state.
    [simplify()] returns no value and changes nothing in any state, but
    the error it raises depends on [rz_pts], which it reads first: the
    error of [rz_pts] when that raises, TypeError when [rz_pts] is the
    empty one-axis array (its mean is a scalar and cannot be unpacked),
    NotImplementedError when [rz_pts] is an N x 2 array, as it is on
    every instance of the data model, and in no other state. *)
Theorem simplify_clone_not_implemented (_ATOL : R) (self : FilamentSet.t) :
  FilamentSet.clone self = (self, Raise NotImplementedError) /\
  fst (FilamentSet.simplify _ATOL self) = self /\
  raises (snd (FilamentSet.simplify _ATOL self)) /\
  (forall rows,
      FilamentSet.rz_pts _ATOL self = Ok (ArrN2 rows) ->
      FilamentSet.simplify _ATOL self = (self, Raise NotImplementedError)) /\
  (data_model self ->
   FilamentSet.simplify _ATOL self = (self, Raise NotImplementedError)) /\
  (forall e,
      FilamentSet.rz_pts _ATOL self = Raise e ->
      e = ValueError /\
      FilamentSet.simplify _ATOL self = (self, Raise ValueError)) /\
  (FilamentSet.rz_pts _ATOL self = Ok Arr1_empty ->
   FilamentSet.simplify _ATOL self = (self, Raise TypeError)) /\
  (snd (FilamentSet.simplify _ATOL self) = Raise NotImplementedError <->
   exists rows, FilamentSet.rz_pts _ATOL self = Ok (ArrN2 rows)).
Proof.
  assert (Hrows : forall rows,
             FilamentSet.rz_pts _ATOL self = Ok (ArrN2 rows) ->
             FilamentSet.simplify _ATOL self
             = (self, Raise NotImplementedError)).
  { intros rows Hpts. unfold FilamentSet.simplify. rewrite Hpts.
    reflexivity. }
  assert (Herr : forall e,
             FilamentSet.rz_pts _ATOL self = Raise e ->
             e = ValueError /\
             FilamentSet.simplify _ATOL self = (self, Raise ValueError)).
  { intros e Hpts.
    pose proof (rz_pts_raises_value_error _ATOL self Hpts) as ->.
    split; [reflexivity|].
    unfold FilamentSet.simplify. rewrite Hpts. reflexivity. }
  assert (Hempty : FilamentSet.rz_pts _ATOL self = Ok Arr1_empty ->
                   FilamentSet.simplify _ATOL self = (self, Raise TypeError)).
  { intros Hpts. unfold FilamentSet.simplify. rewrite Hpts. reflexivity. }
  destruct (simplify_never_returns _ATOL self) as [H1 H2].
  split; [reflexivity|]. split; [exact H1|]. split; [exact H2|].
  split; [exact Hrows|]. split; [|split; [exact Herr|split; [exact Hempty|]]].
  { intros Hdm.
    destruct (data_model_rz_pts _ATOL self Hdm) as (rows & E & _).
    apply (Hrows rows E). }
  split.
  - intros Hs.
    destruct (FilamentSet.rz_pts _ATOL self) as [[|rows]|e] eqn:E.
    + rewrite (Hempty eq_refl) in Hs. discriminate Hs.
    + now exists rows.
    + destruct (Herr e eq_refl) as [_ Hv]. rewrite Hv in Hs.
      discriminate Hs.
  - intros [rows E]. now rewrite (Hrows rows E).
Qed.

Lemma simplify_clone_not_implemented_witness :
  data_model (FilamentSet.RC example_coil) /\
  FilamentSet.simplify 0 (FilamentSet.RC example_coil)
  = (FilamentSet.RC example_coil, Raise NotImplementedError).
Proof.
  assert (H : data_model (FilamentSet.RC example_coil))
    by (simpl; lia).
  split; [exact H|].
  apply (simplify_clone_not_implemented 0 (FilamentSet.RC example_coil)), H.
Defined.



(** C8, as stated, fails: a MagnetRing built with five weights and a
    RectangularCoil built with the defaults and then given [nr = 0] are
    states in which [simplify()] raises ValueError and TypeError, not
    NotImplementedError. *)
Lemma simplify_raises_other_errors :
  ~ (forall _ATOL m,
        MagnetRing.__init__ 1 0 0.01 0.01 0 (Some [1; 1; 1; 1; 1]) 1 None
          false = Ok m ->
        snd (FilamentSet.simplify _ATOL (FilamentSet.MR m))
        = Raise NotImplementedError) /\
  ~ (forall _ATOL c,
        RectangularCoil.__init__ 1 0 1 1 0.1 0.1 0 1 None None false = Ok c ->
        snd (FilamentSet.simplify _ATOL
               (FilamentSet.RC (RectangularCoil.set_nr c 0)))
        = Raise NotImplementedError).
Proof.
  split; intros H.
  - specialize (H 0 _ eq_refl). discriminate H.
  - specialize (H 0 _ eq_refl).
    unfold FilamentSet.simplify in H.
    cbn [FilamentSet.rz_pts snd] in H.
    unfold RectangularCoil.rz_pts in H. cbv zeta in H.
    cbn [RectangularCoil.nr RectangularCoil._nr RectangularCoil.set_nr
      cv.flag_greens_on_set np.linspace Z.ltb Z.compare Z.to_nat seq map
      bind RectangularCoil.nz RectangularCoil._nz Z.sub Z.add Z.opp
      Pos.compare Pos.compare_cont flat_map np.array app set__uptodate
      RectangularCoil.uptodate RectangularCoil.angle RectangularCoil._angle]
      in H.
    rewrite isclose_zero in H by (unfold np.default_atol; lra).
    discriminate H.
Qed.

(** * Further properties *)

(** ** Motions compose *)

Lemma rotate_about_compose (a b : R) (pivot p : point) :
  rotate_about b pivot (rotate_about a pivot p) = rotate_about (a + b) pivot p.
Proof.
  unfold rotate_about, rotation.
  replace (PI * (a + b) / 180) with (PI * a / 180 + PI * b / 180) by lra.
  rewrite cos_plus, sin_plus.
  destruct p as [x y], pivot as [px py].
  unfold add_pt, sub_pt, matmul. cbn [fst snd]. f_equal; ring.
Qed.

Lemma add_pt_assoc (p v w : point) :
  add_pt (add_pt p v) w = add_pt p (add_pt v w).
Proof.
  destruct p, v, w. unfold add_pt. cbn [fst snd]. f_equal; ring.
Qed.

Lemma add_pt_swap (p v w : point) :
  add_pt (add_pt p v) w = add_pt (add_pt p w) v.
Proof.
  destruct p, v, w. unfold add_pt. cbn [fst snd]. f_equal; ring.
Qed.

Lemma pair_eq_fst_snd (p q : point) :
  p = q -> fst p = fst q /\ snd p = snd q.
Proof. intros ->. split; reflexivity. Qed.

(** X1.  Two translations in a row are the translation by the sum of the
    vectors, and they commute; two rotations about the same pivot are the
    rotation by the sum of the angles.  The equations are between whole
    instances: points or centroid, stored angle, weights, current and
    flag. *)
Theorem motions_compose (self : FilamentSet.t) (v w pivot : point)
  (a b : R) :
  FilamentSet.translate (FilamentSet.translate self v) w
  = FilamentSet.translate self (add_pt v w) /\
  FilamentSet.translate (FilamentSet.translate self v) w
  = FilamentSet.translate (FilamentSet.translate self w) v /\
  FilamentSet.rotate (FilamentSet.rotate self a pivot) b pivot
  = FilamentSet.rotate self (a + b) pivot.
Proof.
  destruct self as [s|c|m]; cbn [FilamentSet.translate FilamentSet.rotate].
  - repeat split; f_equal.
    + unfold ArbitraryPoints.translate. cbn. f_equal.
      rewrite map_map. apply map_ext. intros p. apply add_pt_assoc.
    + unfold ArbitraryPoints.translate. cbn. f_equal.
      rewrite !map_map. apply map_ext. intros p. apply add_pt_swap.
    + unfold ArbitraryPoints.rotate. cbn. f_equal; [|ring].
      rewrite map_map. apply map_ext. intros p.
      apply (rotate_about_compose a b pivot p).
  - pose proof (add_pt_assoc (RectangularCoil.centroid c) v w) as Ht.
    pose proof (add_pt_swap (RectangularCoil.centroid c) v w) as Hs.
    pose proof (rotate_about_compose a b pivot (RectangularCoil.centroid c))
      as Hr.
    apply pair_eq_fst_snd in Ht as [Ht1 Ht2].
    apply pair_eq_fst_snd in Hs as [Hs1 Hs2].
    apply pair_eq_fst_snd in Hr as [Hr1 Hr2].
    repeat split; f_equal;
      unfold RectangularCoil.translate, RectangularCoil.rotate,
        RectangularCoil.set_centroid, RectangularCoil.set_angle,
        cv.flag_greens_on_set; cbn; f_equal;
      try assumption.
    unfold RectangularCoil.angle. ring.
  - pose proof (add_pt_assoc (MagnetRing.centroid m) v w) as Ht.
    pose proof (add_pt_swap (MagnetRing.centroid m) v w) as Hs.
    pose proof (rotate_about_compose a b pivot (MagnetRing.centroid m))
      as Hr.
    apply pair_eq_fst_snd in Ht as [Ht1 Ht2].
    apply pair_eq_fst_snd in Hs as [Hs1 Hs2].
    apply pair_eq_fst_snd in Hr as [Hr1 Hr2].
    repeat split; f_equal;
      unfold MagnetRing.translate, MagnetRing.rotate,
        MagnetRing.set_centroid, MagnetRing.set_mu_hat,
        cv.flag_greens_on_set; cbn; f_equal;
      try assumption.
    unfold MagnetRing.mu_hat. ring.
Qed.

(** X2.  Rotating a RectangularCoil or a MagnetRing about its own
    centroid moves nothing: it is the assignment of the stored angle,
    increased by the angle of the rotation. *)
Theorem rotate_about_own_centroid (c : RectangularCoil.t) (m : MagnetRing.t)
  (a : R) :
  RectangularCoil.rotate c a (RectangularCoil.centroid c)
  = RectangularCoil.set_angle c (RectangularCoil.angle c + a) /\
  MagnetRing.rotate m a (MagnetRing.centroid m)
  = MagnetRing.set_mu_hat m (MagnetRing.mu_hat m + a).
Proof.
  split.
  - unfold RectangularCoil.rotate, RectangularCoil.set_centroid,
      RectangularCoil.set_angle, cv.flag_greens_on_set. cbn.
    f_equal; unfold RectangularCoil.r0, RectangularCoil.z0; ring.
  - unfold MagnetRing.rotate, MagnetRing.set_centroid,
      MagnetRing.set_mu_hat, cv.flag_greens_on_set. cbn.
    f_equal; unfold MagnetRing.r0, MagnetRing.z0; ring.
Qed.

(** ** Construction *)

Lemma sum_repeat_one (n : nat) (acc : R) :
  fold_left Rplus (repeat 1 n) acc = acc + INR n.
Proof.
  revert acc. induction n as [|n IH]; intros acc.
  - simpl. ring.
  - cbn [repeat fold_left]. rewrite IH, S_INR. ring.
Qed.

Lemma ones_total_current (b : CurrentFilamentSet.t R) (n : Z) (I : R)
  (kw : option kwargs) (fu : bool) :
  CurrentFilamentSet.__init__ (Ok n) I None kw fu = Ok b ->
  (0 <= n)%Z /\
  CurrentFilamentSet.weights b = repeat 1 (Z.to_nat n) /\
  CurrentFilamentSet.total_current b = I * IZR n.
Proof.
  unfold CurrentFilamentSet.__init__. cbn [bind]. unfold np.ones.
  destruct (Z.ltb_spec n 0); [discriminate|]. cbn [bind].
  intros E. injection E as <-. split; [assumption|]. split; [reflexivity|].
  unfold CurrentFilamentSet.total_current, CurrentFilamentSet.weights,
    CurrentFilamentSet.current, np.sum. cbn.
  rewrite sum_repeat_one, INR_IZR_INZ, Z2Nat.id by assumption. ring.
Qed.

(** X3.  Built without weights, an ArbitraryPoints or a RectangularCoil
    gets the weight 1 on each of its [npts] filaments, so that its total
    current is [npts] times the current.  Without weights a
    RectangularCoil can be built exactly when [nr*nz] is not negative (a
    ValueError otherwise); with weights, whatever they are, it is always
    built. *)
Theorem construction_without_weights :
  (forall pts I kw fu s,
      ArbitraryPoints.__init__ pts I None kw fu = Ok s ->
      FilamentSet.weights (FilamentSet.AP s) = repeat 1 (length pts) /\
      FilamentSet.total_current (FilamentSet.AP s)
      = I * IZR (FilamentSet.npts (FilamentSet.AP s))) /\
  (forall r0 z0 nr nz dr dz angle I kw fu c,
      RectangularCoil.__init__ r0 z0 nr nz dr dz angle I None kw fu = Ok c ->
      (0 <= nr * nz)%Z /\
      FilamentSet.weights (FilamentSet.RC c) = repeat 1 (Z.to_nat (nr * nz)) /\
      FilamentSet.total_current (FilamentSet.RC c)
      = I * IZR (FilamentSet.npts (FilamentSet.RC c))) /\
  (forall r0 z0 nr nz dr dz angle I kw fu,
      (nr * nz < 0)%Z ->
      RectangularCoil.__init__ r0 z0 nr nz dr dz angle I None kw fu
      = Raise ValueError) /\
  (forall r0 z0 nr nz dr dz angle I kw fu,
      (0 <= nr * nz)%Z ->
      exists c,
        RectangularCoil.__init__ r0 z0 nr nz dr dz angle I None kw fu
        = Ok c) /\
  (forall r0 z0 nr nz dr dz angle I w kw fu,
      exists c,
        RectangularCoil.__init__ r0 z0 nr nz dr dz angle I (Some w) kw fu
        = Ok c /\
        FilamentSet.weights (FilamentSet.RC c) = w).
Proof.
  split; [|split; [|split; [|split]]].
  - intros pts I kw fu s E. unfold ArbitraryPoints.__init__ in E.
    destruct (CurrentFilamentSet.__init__ _ I None kw fu) as [b|e] eqn:Eb;
      [|discriminate].
    cbn [bind] in E. injection E as <-.
    apply ones_total_current in Eb as (_ & Hw & Ht).
    rewrite Nat2Z.id in Hw. split; [exact Hw|]. exact Ht.
  - intros r0 z0 nr nz dr dz angle I kw fu c E.
    unfold RectangularCoil.__init__ in E.
    destruct (CurrentFilamentSet.__init__ _ I None kw fu) as [b|e] eqn:Eb;
      [|discriminate].
    cbn [bind] in E. injection E as <-.
    apply ones_total_current in Eb as (Hn & Hw & Ht).
    split; [exact Hn|]. split; [exact Hw|exact Ht].
  - intros r0 z0 nr nz dr dz angle I kw fu Hneg.
    unfold RectangularCoil.__init__, CurrentFilamentSet.__init__, np.ones.
    cbn [bind]. destruct (Z.ltb_spec (nr * nz) 0); [reflexivity|lia].
  - intros r0 z0 nr nz dr dz angle I kw fu Hpos.
    unfold RectangularCoil.__init__, CurrentFilamentSet.__init__, np.ones.
    cbn [bind]. destruct (Z.ltb_spec (nr * nz) 0); [lia|].
    eexists. reflexivity.
  - intros. eexists. split; reflexivity.
Qed.

Lemma construction_without_weights_witness :
  RectangularCoil.__init__ 1 0 2 2 0.1 0.1 0 1 None None false
  = Ok example_coil /\
  FilamentSet.total_current (FilamentSet.RC example_coil)
  = 1 * IZR (FilamentSet.npts (FilamentSet.RC example_coil)).
Proof.
  assert (H : RectangularCoil.__init__ 1 0 2 2 0.1 0.1 0 1 None None false
              = Ok example_coil) by reflexivity.
  split; [exact H|].
  apply (proj1 (proj2 construction_without_weights) _ _ _ _ _ _ _ _ _ _ _ H).
Defined.

(** ** When [rz_pts] is an array of points *)

Lemma linspace_negative (a b : R) (n : Z) :
  (n < 0)%Z -> np.linspace a b n = Raise ValueError.
Proof.
  intros Hn. unfold np.linspace. destruct (Z.ltb_spec n 0); [reflexivity|lia].
Qed.

Lemma linspace_total (a b : R) (n : Z) :
  (0 <= n)%Z -> exists l, np.linspace a b n = Ok l /\ length l = Z.to_nat n.
Proof.
  intros Hn. destruct (np.linspace a b n) as [l|e] eqn:E.
  - exists l. split; [reflexivity|]. apply (linspace_ok _ _ _ E).
  - unfold np.linspace in E. destruct (Z.ltb_spec n 0); [lia|discriminate].
Qed.

Lemma rectangular_coil_rz_pts_negative (c : RectangularCoil.t) :
  (RectangularCoil.nr c < 0)%Z \/ (RectangularCoil.nz c < 0)%Z ->
  RectangularCoil.rz_pts c = Raise ValueError.
Proof.
  intros Hneg. unfold RectangularCoil.rz_pts.
  cbn [fst snd RectangularCoil.centroid].
  set (nr := RectangularCoil.nr c) in *.
  set (nz := RectangularCoil.nz c) in *.
  destruct (Z.ltb_spec nr 0) as [Hr|Hr].
  - rewrite (linspace_negative _ _ Hr). reflexivity.
  - destruct (linspace_total
                (RectangularCoil.r0 c
                 - RectangularCoil.dr c * IZR (nr - 1) / 2)
                (RectangularCoil.r0 c
                 + RectangularCoil.dr c * IZR (nr - 1) / 2) Hr)
      as (r & Er & _).
    rewrite Er. cbn [bind].
    rewrite linspace_negative by lia. reflexivity.
Qed.

Lemma rectangular_coil_rz_pts_zero (c : RectangularCoil.t) :
  (0 <= RectangularCoil.nr c)%Z -> (0 <= RectangularCoil.nz c)%Z ->
  (RectangularCoil.nr c = 0 \/ RectangularCoil.nz c = 0)%Z ->
  np.isclose (RectangularCoil.angle c) 0 np.default_rtol np.default_atol
  = true ->
  RectangularCoil.rz_pts c = Ok Arr1_empty.
Proof.
  intros Hr Hz Hzero Hclose. unfold RectangularCoil.rz_pts.
  cbn [fst snd RectangularCoil.centroid].
  set (nr := RectangularCoil.nr c) in *.
  set (nz := RectangularCoil.nz c) in *.
  destruct (linspace_total
              (RectangularCoil.r0 c
               - RectangularCoil.dr c * IZR (nr - 1) / 2)
              (RectangularCoil.r0 c
               + RectangularCoil.dr c * IZR (nr - 1) / 2) Hr)
    as (r & Er & Lr).
  destruct (linspace_total
              (RectangularCoil.z0 c
               - RectangularCoil.dz c * IZR (nz - 1) / 2)
              (RectangularCoil.z0 c
               + RectangularCoil.dz c * IZR (nz - 1) / 2) Hz)
    as (z & Ez & Lz).
  rewrite Er, Ez. cbn [bind]. fold (cartesian r z).
  assert (Hnil : cartesian r z = []).
  { destruct Hzero as [H0|H0].
    - rewrite H0 in Lr. destruct r; [reflexivity|discriminate Lr].
    - rewrite H0 in Lz. destruct z; [|discriminate Lz].
      apply cartesian_nil_r. }
  rewrite Hnil. cbn [np.array]. rewrite Hclose. reflexivity.
Qed.

Lemma rectangular_coil_rz_pts_full (c : RectangularCoil.t) :
  (1 <= RectangularCoil.nr c)%Z -> (1 <= RectangularCoil.nz c)%Z ->
  exists rows,
    RectangularCoil.rz_pts c = Ok (ArrN2 rows) /\
    len rows = RectangularCoil.npts c.
Proof.
  intros Hr Hz. rewrite (rectangular_coil_rz_pts_placed c Hr Hz).
  eexists. split; [reflexivity|].
  unfold len. rewrite length_map. apply grid_length; lia.
Qed.

(** X4.  [rz_pts] of a RectangularCoil, by the filament counts: with a
    negative count it raises ValueError; with no negative count, one count
    zero and the angle close to 0 it is the empty one-axis array; with
    both counts at least 1 it is an array of [npts] rows of two.  It is an
    N x 2 array exactly when [nr >= 1] and [nz >= 1]. *)
Theorem rectangular_coil_rz_pts_cases (c : RectangularCoil.t) :
  let nr := RectangularCoil.nr c in
  let nz := RectangularCoil.nz c in
  let close := np.isclose (RectangularCoil.angle c) 0
                 np.default_rtol np.default_atol in
  ((nr < 0)%Z \/ (nz < 0)%Z ->
   RectangularCoil.rz_pts c = Raise ValueError) /\
  ((0 <= nr)%Z -> (0 <= nz)%Z -> (nr = 0 \/ nz = 0)%Z -> close = true ->
   RectangularCoil.rz_pts c = Ok Arr1_empty) /\
  ((1 <= nr)%Z -> (1 <= nz)%Z ->
   exists rows,
     RectangularCoil.rz_pts c = Ok (ArrN2 rows) /\
     len rows = RectangularCoil.npts c) /\
  ((exists rows, RectangularCoil.rz_pts c = Ok (ArrN2 rows)) <->
   (1 <= nr)%Z /\ (1 <= nz)%Z).
Proof.
  intros nr nz close.
  split; [apply rectangular_coil_rz_pts_negative|].
  split; [apply rectangular_coil_rz_pts_zero|].
  split; [apply rectangular_coil_rz_pts_full|].
  split.
  - intros [rows E]. apply (rectangular_coil_rz_pts_inv c E).
  - intros [Hr Hz].
    destruct (rectangular_coil_rz_pts_full c Hr Hz) as (rows & E & _).
    exists rows. exact E.
Qed.

Lemma rectangular_coil_rz_pts_cases_witness :
  (1 <= RectangularCoil.nr example_coil)%Z /\
  (1 <= RectangularCoil.nz example_coil)%Z /\
  exists rows,
    RectangularCoil.rz_pts example_coil = Ok (ArrN2 rows) /\
    len rows = RectangularCoil.npts example_coil.
Proof.
  assert (Hr : (1 <= RectangularCoil.nr example_coil)%Z) by (simpl; lia).
  assert (Hz : (1 <= RectangularCoil.nz example_coil)%Z) by (simpl; lia).
  split; [exact Hr|]. split; [exact Hz|].
  apply (proj1 (proj2 (proj2 (rectangular_coil_rz_pts_cases example_coil)))
           Hr Hz).
Defined.

Lemma linspace_spans (a b : R) (n : Z) :
  (2 <= n)%Z ->
  exists l, np.linspace a b n = Ok l /\ spans_evenly l a b n.
Proof.
  intros Hn.
  assert (Hd : IZR (n - 1) <> 0) by (apply not_0_IZR; lia).
  set (c := (a + b) / 2). set (d := (b - a) / IZR (n - 1)).
  assert (Ha : a = c - d * IZR (n - 1) / 2) by (unfold c, d; field; exact Hd).
  assert (Hb : b = c + d * IZR (n - 1) / 2) by (unfold c, d; field; exact Hd).
  exists (evenly_spaced c d n). split.
  - rewrite Ha at 1. rewrite Hb at 1. apply linspace_evenly_spaced. lia.
  - rewrite Ha at 1. rewrite Hb at 1. apply evenly_spaced_spans. lia.
Qed.

Lemma linspace_one (a b : R) : np.linspace a b 1 = Ok [a].
Proof. unfold np.linspace. simpl. do 2 f_equal. lra. Qed.

Lemma broadcast_to_fail {A : Type} (l : list A) (k : nat) :
  length l <> k -> length l <> 1%nat ->
  np.broadcast_to l k = Raise ValueError.
Proof.
  intros Hk H1. unfold np.broadcast_to.
  destruct (Nat.eqb_spec (length l) k); [contradiction|].
  destruct l as [|a [|b tl]]; try reflexivity. now elim H1.
Qed.

Lemma combine_repeat {A B : Type} (a : A) (l : list B) :
  combine (repeat a (length l)) l = map (fun y => (a, y)) l.
Proof. induction l as [|y tl IH]; [reflexivity|]. simpl. now rewrite IH. Qed.

Lemma combine_app_same {A B : Type} (l1 l2 : list A) (l1' l2' : list B) :
  length l1 = length l1' ->
  combine (l1 ++ l2) (l1' ++ l2') = combine l1 l1' ++ combine l2 l2'.
Proof.
  revert l1'. induction l1 as [|x tl IH]; intros [|y tl'] H;
    try discriminate H; [reflexivity|].
  simpl. f_equal. apply IH. now injection H.
Qed.

Lemma odd_half (n : Z) :
  Z.odd n = true -> n = (2 * (n / 2) + 1)%Z.
Proof.
  intros Ho. apply Z.odd_spec in Ho as [k Hk].
  assert (Hq : (n / 2 = k)%Z).
  { symmetry. apply (Z.div_unique n 2 k 1); lia. }
  lia.
Qed.

Lemma even_half (n : Z) :
  Z.even n = true -> n = (2 * (n / 2))%Z.
Proof.
  intros He. apply Z.even_spec in He as [k Hk]. rewrite Hk at 2.
  rewrite (Z.mul_comm 2 k), Z.div_mul by lia. lia.
Qed.

(** [rz_pts] of a MagnetRing with an even number of weights. *)
Lemma magnet_ring_rz_pts_even (_ATOL : R) (m : MagnetRing.t) :
  let n := MagnetRing.npts m in
  let h := (n / 2)%Z in
  let r0 := MagnetRing.r0 m in
  let z0 := MagnetRing.z0 m in
  let hw := MagnetRing.width m / 2 in
  let hh := MagnetRing.height m / 2 in
  let mu_hat := MagnetRing.mu_hat m in
  let turned (pts : list point) :=
    if np.isclose mu_hat 0 0 _ATOL then pts
    else transforms.rotate_rows pts mu_hat (r0, z0) in
  Z.even n = true ->
  exists zs,
    len zs = h /\
    ((2 <= h)%Z -> spans_evenly zs (- hh) hh h) /\
    (h = 1%Z -> zs = [- hh]) /\
    MagnetRing.rz_pts _ATOL m
    = Ok (ArrN2 (turned (map (fun z => (r0 - hw, z0 + z)) zs
                         ++ map (fun z => (r0 + hw, z0 + z)) zs))).
Proof.
  intros n h r0 z0 hw hh mu_hat turned He.
  assert (Hn0 : (0 <= n)%Z) by apply Zle_0_nat.
  assert (Hh0 : (0 <= h)%Z) by (apply Z.div_pos; lia).
  pose proof (even_half n He) as H2. fold h in H2.
  assert (Hzs : exists zs,
             np.linspace (- hh) hh h = Ok zs /\ len zs = h /\
             ((2 <= h)%Z -> spans_evenly zs (- hh) hh h) /\
             (h = 1%Z -> zs = [- hh])).
  { destruct (Z_le_gt_dec 2 h) as [Hge|Hlt].
    - destruct (linspace_spans (- hh) hh Hge) as (l & El & Sl).
      exists l. split; [exact El|]. split; [exact (proj1 Sl)|].
      split; [intros _; exact Sl|lia].
    - destruct (linspace_total (- hh) hh Hh0) as (l & El & Ll).
      exists l. split; [exact El|]. split; [unfold len; lia|].
      split; [lia|]. intros H1. rewrite H1, linspace_one in El.
      now injection El. }
  destruct Hzs as (zs & Ez & Lz & Sz & Z1).
  exists zs. split; [exact Lz|]. split; [exact Sz|]. split; [exact Z1|].
  unfold MagnetRing.rz_pts. cbn [fst snd MagnetRing.centroid].
  fold n h r0 z0 hw hh mu_hat.
  unfold np.ones. destruct (Z.ltb_spec h 0); [lia|]. cbn [bind].
  rewrite Ez. cbn [bind].
  unfold len in Lz.
  assert (Lz' : length zs = Z.to_nat h) by lia.
  replace (Nat.min (Z.to_nat h) (Z.to_nat n)) with (Z.to_nat h) by lia.
  replace (Z.to_nat n - Z.to_nat h)%nat with (Z.to_nat h) by lia.
  rewrite !map_repeat.
  rewrite !broadcast_to_same
    by (rewrite ?length_map, ?repeat_length; assumption || reflexivity).
  cbn [bind]. fold (turned).
  assert (H1 : hw * one = hw) by (cbn; lra). rewrite !H1.
  rewrite combine_app_same by now rewrite repeat_length, length_map.
  rewrite <- Lz'.
  rewrite <- (length_map (fun z : R => z0 + z) zs).
  rewrite !combine_repeat, !map_map.
  destruct (np.isclose mu_hat 0 0 _ATOL); reflexivity.
Qed.

Lemma magnet_ring_rz_pts_three (_ATOL : R) (m : MagnetRing.t) :
  let r0 := MagnetRing.r0 m in
  let z0 := MagnetRing.z0 m in
  let hw := MagnetRing.width m / 2 in
  let hh := MagnetRing.height m / 2 in
  let mu_hat := MagnetRing.mu_hat m in
  let turned (pts : list point) :=
    if np.isclose mu_hat 0 0 _ATOL then pts
    else transforms.rotate_rows pts mu_hat (r0, z0) in
  MagnetRing.npts m = 3%Z ->
  MagnetRing.rz_pts _ATOL m
  = Ok (ArrN2 (turned [(r0 - hw, z0 + - hh); (r0 + hw, z0 + - hh);
                       (r0 + hw, z0 + - hh)])).
Proof.
  intros r0 z0 hw hh mu_hat turned. set (n := MagnetRing.npts m).
  intros H3. unfold MagnetRing.rz_pts.
  cbn [fst snd MagnetRing.centroid].
  fold n r0 z0 hw hh mu_hat. rewrite H3.
  change (3 / 2)%Z with 1%Z. rewrite linspace_one.
  unfold np.ones. cbn [Z.ltb Z.compare bind Z.to_nat].
  change (Pos.to_nat 1) with 1%nat. change (Pos.to_nat 3) with 3%nat.
  cbn [repeat map Nat.min Nat.sub].
  assert (H1 : hw * one = hw) by (cbn; lra). rewrite !H1.
  unfold np.broadcast_to.
  cbn [length Nat.eqb bind repeat combine app].
  destruct (np.isclose mu_hat 0 0 _ATOL); reflexivity.
Qed.

Lemma magnet_ring_rz_pts_odd (_ATOL : R) (m : MagnetRing.t) :
  Z.odd (MagnetRing.npts m) = true -> MagnetRing.npts m <> 3%Z ->
  MagnetRing.rz_pts _ATOL m = Raise ValueError.
Proof.
  set (n := MagnetRing.npts m). set (h := (n / 2)%Z).
  set (hw := MagnetRing.width m / 2). set (hh := MagnetRing.height m / 2).
  assert (Hn0 : (0 <= n)%Z) by apply Zle_0_nat.
  assert (Hh0 : (0 <= h)%Z) by (apply Z.div_pos; lia).
  intros Ho H3. rewrite magnet_ring_rz_pts_placed.
  pose proof (odd_half n Ho) as H2. fold h in H2.
  replace (magnet_sheets (MagnetRing.npts m) (MagnetRing.width m)
             (MagnetRing.height m))
    with (@Raise (list point) ValueError); [reflexivity|].
  symmetry. unfold magnet_sheets. fold n h hw hh.
  unfold np.ones. destruct (Z.ltb_spec h 0); [lia|]. cbn [bind].
  destruct (linspace_total (- hh) hh Hh0) as (zs & Ez & Lz).
  rewrite Ez. cbn [bind].
  replace (Nat.min (Z.to_nat h) (Z.to_nat n)) with (Z.to_nat h) by lia.
  rewrite broadcast_to_same
    by now rewrite !length_map, repeat_length.
  cbn [bind].
  rewrite broadcast_to_fail;
    [reflexivity| |]; rewrite length_map, repeat_length; lia.
Qed.

(** X5.  [rz_pts] of a MagnetRing, by the number [npts] of its weights.
    When [npts] is even, half the filaments lie at [R = r0 - width/2] and
    half at [R = r0 + width/2], both halves on the same Z offsets from
    [z0], which are evenly spaced from [-height/2] to [height/2] (the
    single offset [-height/2] when a half has one filament); the points
    are rotated about the centroid by [mu_hat] unless [mu_hat] is within
    [cv._ATOL] of 0.  With three weights the assignment broadcasts and the
    second and third filaments coincide.  With any other odd number of
    weights [rz_pts] raises ValueError. *)
Theorem magnet_ring_rz_pts_cases (_ATOL : R) (m : MagnetRing.t) :
  let n := MagnetRing.npts m in
  let h := (n / 2)%Z in
  let r0 := MagnetRing.r0 m in
  let z0 := MagnetRing.z0 m in
  let hw := MagnetRing.width m / 2 in
  let hh := MagnetRing.height m / 2 in
  let mu_hat := MagnetRing.mu_hat m in
  let turned (pts : list point) :=
    if np.isclose mu_hat 0 0 _ATOL then pts
    else transforms.rotate_rows pts mu_hat (r0, z0) in
  (Z.even n = true ->
   exists zs,
     len zs = h /\
     ((2 <= h)%Z -> spans_evenly zs (- hh) hh h) /\
     (h = 1%Z -> zs = [- hh]) /\
     MagnetRing.rz_pts _ATOL m
     = Ok (ArrN2 (turned (map (fun z => (r0 - hw, z0 + z)) zs
                          ++ map (fun z => (r0 + hw, z0 + z)) zs)))) /\
  (n = 3%Z ->
   MagnetRing.rz_pts _ATOL m
   = Ok (ArrN2 (turned [(r0 - hw, z0 + - hh); (r0 + hw, z0 + - hh);
                        (r0 + hw, z0 + - hh)]))) /\
  (Z.odd n = true -> n <> 3%Z ->
   MagnetRing.rz_pts _ATOL m = Raise ValueError).
Proof.
  intros n h r0 z0 hw hh mu_hat turned.
  split; [|split].
  - intros He. apply (magnet_ring_rz_pts_even _ATOL m He).
  - apply (magnet_ring_rz_pts_three _ATOL m).
  - apply (magnet_ring_rz_pts_odd _ATOL m).
Qed.

Lemma magnet_ring_rz_pts_cases_witness :
  Z.even (MagnetRing.npts example_magnet) = true /\
  exists zs,
    len zs = 8%Z /\
    spans_evenly zs (- (0.08 / 2)) (0.08 / 2) 8 /\
    MagnetRing.rz_pts 0 example_magnet
    = Ok (ArrN2 (map (fun z => (1 - 0.02 / 2, 0 + z)) zs
                 ++ map (fun z => (1 + 0.02 / 2, 0 + z)) zs)).
Proof.
  assert (He : Z.even (MagnetRing.npts example_magnet) = true)
    by reflexivity.
  split; [exact He|].
  destruct (proj1 (magnet_ring_rz_pts_cases 0 example_magnet) He)
    as (zs & Lz & Sz & _ & E).
  exists zs. split; [exact Lz|]. split.
  - apply Sz. change (MagnetRing.npts example_magnet / 2)%Z with 8%Z. lia.
  - rewrite E. cbn [MagnetRing.mu_hat MagnetRing._mu_hat example_magnet].
    rewrite isclose_zero by lra. reflexivity.
Defined.

(** ** Boundary polygons, vertex by vertex *)

Lemma item_nat {A : Type} (l : list A) (k : nat) (x : A) :
  nth_error l k = Some x -> np.item l (Z.of_nat k) = Ok x.
Proof.
  intros E. unfold np.item.
  assert (Hk : (k < length l)%nat) by (apply nth_error_Some; congruence).
  destruct (Z.ltb_spec (Z.of_nat k) 0); [lia|].
  destruct (Z.ltb_spec (Z.of_nat k) 0); [lia|].
  destruct (Z.leb_spec (Z.of_nat (length l)) (Z.of_nat k)); [lia|].
  cbn [orb]. rewrite Nat2Z.id, E. reflexivity.
Qed.

Lemma item_empty {A : Type} (i : Z) :
  np.item (@nil A) i = Raise IndexError.
Proof.
  unfold np.item. cbn [length Z.of_nat].
  destruct (i <? 0)%Z eqn:Ei.
  - rewrite Z.add_0_r, Ei. reflexivity.
  - rewrite Ei. cbn [orb].
    destruct (Z.leb_spec 0 i); [reflexivity|].
    apply Z.ltb_ge in Ei. lia.
Qed.

Lemma grid_item (r0 z0 : R) (nr nz : Z) (dr dz : R) (i j : nat) :
  (i < Z.to_nat nr)%nat -> (j < Z.to_nat nz)%nat ->
  np.item (grid r0 z0 nr nz dr dz) (Z.of_nat i * nz + Z.of_nat j)
  = Ok (r0 - dr * IZR (nr - 1) / 2 + INR i * dr,
        z0 - dz * IZR (nz - 1) / 2 + INR j * dz).
Proof.
  intros Hi Hj.
  replace (Z.of_nat i * nz + Z.of_nat j)%Z
    with (Z.of_nat (i * Z.to_nat nz + j)) by lia.
  apply item_nat. unfold grid.
  rewrite <- (evenly_spaced_length z0 dz nz) at 1.
  rewrite cartesian_nth_error by now rewrite evenly_spaced_length.
  rewrite !evenly_spaced_nth by assumption. reflexivity.
Qed.

(** The rows [_verts] of a RectangularCoil picks from the grid: the
    filaments at its four corners. *)
Lemma grid_corner_rows (r0 z0 : R) (nr nz : Z) (dr dz : R) :
  (1 <= nr)%Z -> (1 <= nz)%Z ->
  let rl := r0 - dr * (IZR nr - 1) / 2 in
  let ru := r0 + dr * (IZR nr - 1) / 2 in
  let zl := z0 - dz * (IZR nz - 1) / 2 in
  let zu := z0 + dz * (IZR nz - 1) / 2 in
  np.take_rows (grid r0 z0 nr nz dr dz)
    [0; nz - 1; nr * nz - 1; (nr - 1) * nz; 0]%Z
  = Ok [(rl, zl); (rl, zu); (ru, zu); (ru, zl); (rl, zl)].
Proof.
  intros Hr Hz rl ru zl zu.
  set (g := grid r0 z0 nr nz dr dz).
  assert (E00 : np.item g 0 = Ok (rl, zl)).
  { replace 0%Z with (Z.of_nat 0 * nz + Z.of_nat 0)%Z by lia.
    unfold g. rewrite grid_item by lia.
    unfold rl, zl. rewrite !minus_IZR. cbn [INR]. do 2 f_equal; lra. }
  assert (E01 : np.item g (nz - 1) = Ok (rl, zu)).
  { replace (nz - 1)%Z
      with (Z.of_nat 0 * nz + Z.of_nat (Z.to_nat (nz - 1)))%Z by lia.
    unfold g. rewrite grid_item by lia.
    rewrite !INR_IZR_INZ, !Z2Nat.id by lia.
    unfold rl, zu. rewrite !minus_IZR. cbn [Z.of_nat].
    f_equal. apply f_equal2; field. }
  assert (E11 : np.item g (nr * nz - 1) = Ok (ru, zu)).
  { replace (nr * nz - 1)%Z
      with (Z.of_nat (Z.to_nat (nr - 1)) * nz
            + Z.of_nat (Z.to_nat (nz - 1)))%Z
      by (rewrite !Z2Nat.id by lia; ring).
    unfold g. rewrite grid_item by lia.
    rewrite !INR_IZR_INZ, !Z2Nat.id by lia.
    unfold ru, zu. rewrite !minus_IZR.
    f_equal. apply f_equal2; field. }
  assert (E10 : np.item g ((nr - 1) * nz) = Ok (ru, zl)).
  { replace ((nr - 1) * nz)%Z
      with (Z.of_nat (Z.to_nat (nr - 1)) * nz + Z.of_nat 0)%Z
      by (rewrite !Z2Nat.id by lia; cbn [Z.of_nat]; ring).
    unfold g. rewrite grid_item by lia.
    rewrite !INR_IZR_INZ, !Z2Nat.id by lia.
    unfold ru, zl. rewrite !minus_IZR. cbn [Z.of_nat].
    f_equal. apply f_equal2; field. }
  cbn [np.take_rows]. rewrite E00, E01, E11, E10. reflexivity.
Qed.

Lemma item_map {A B : Type} (f : A -> B) (l : list A) (i : Z) :
  np.item (map f l) i = x <- np.item l i ;; Ok (f x).
Proof.
  unfold np.item. rewrite length_map.
  destruct ((_ <? 0) || _)%Z; [reflexivity|].
  rewrite nth_error_map. destruct (nth_error l _); reflexivity.
Qed.

Lemma take_rows_map (f : point -> point) (l : list point) (idx : list Z) :
  np.take_rows (map f l) idx = x <- np.take_rows l idx ;; Ok (map f x).
Proof.
  induction idx as [|i tl IH]; [reflexivity|].
  cbn [np.take_rows]. rewrite item_map, IH.
  destruct (np.item l i); [|reflexivity]. cbn [bind].
  destruct (np.take_rows l tl); reflexivity.
Qed.

Lemma rotate_about_sum (a : R) (c p d : point) :
  add_pt (rotate_about a c p) (rotate_about a (0, 0) d)
  = rotate_about a c (add_pt p d).
Proof.
  unfold rotate_about. destruct (rotation a) as [[m11 m12] [m21 m22]].
  destruct c, p, d. unfold add_pt, sub_pt, matmul. cbn [fst snd].
  f_equal; ring.
Qed.

(** [_verts] of a RectangularCoil with at least one filament each way:
    the rectangle of sides [nr*dr] and [nz*dz] about the centroid, as it
    is or turned about the centroid. *)
Lemma rectangular_coil_verts (c : RectangularCoil.t) :
  (1 <= RectangularCoil.nr c)%Z ->
  (1 <= RectangularCoil.nz c)%Z ->
  let r0 := RectangularCoil.r0 c in
  let z0 := RectangularCoil.z0 c in
  let a := IZR (RectangularCoil.nr c) * RectangularCoil.dr c / 2 in
  let b := IZR (RectangularCoil.nz c) * RectangularCoil.dz c / 2 in
  let corners := [(r0 - a, z0 - b); (r0 - a, z0 + b); (r0 + a, z0 + b);
                  (r0 + a, z0 - b); (r0 - a, z0 - b)] in
  RectangularCoil._verts c
  = Ok (if np.isclose (RectangularCoil.angle c) 0
             np.default_rtol np.default_atol
        then corners
        else map (rotate_about (RectangularCoil.angle c) (r0, z0)) corners).
Proof.
  intros Hr Hz r0 z0 a b corners. unfold RectangularCoil._verts.
  rewrite (rectangular_coil_rz_pts_grid c Hr Hz). cbv zeta.
  fold r0 z0.
  set (nr := RectangularCoil.nr c) in *.
  set (nz := RectangularCoil.nz c) in *.
  set (dr := RectangularCoil.dr c) in *.
  set (dz := RectangularCoil.dz c) in *.
  pose proof (grid_corner_rows r0 z0 dr dz Hr Hz) as Hrows. cbv zeta in Hrows.
  destruct (np.isclose _ _ _ _); cbn [bind np.index_rows negb].
  - rewrite Hrows. cbn [bind map combine fst snd]. f_equal.
    unfold corners, a, b, add_pt. cbn [fst snd].
    repeat (apply f_equal2; [apply f_equal2; field|]). reflexivity.
  - unfold transforms.rotate_rows. rewrite take_rows_map, Hrows.
    cbn [bind map combine fst snd]. f_equal.
    rewrite !rotate_about_sum.
    unfold corners, a, b, add_pt. cbn [fst snd map].
    repeat (apply f_equal2; [f_equal; apply f_equal2; field|]). reflexivity.
Qed.

(** X6.  The boundary polygon of an unrotated RectangularCoil (angle close
    to 0, at least one filament each way) is the rectangle of sides
    [nr*dr] and [nz*dz] centred on the centroid: lower left, upper left,
    upper right, lower right, and the lower left corner again to close
    it.  [patch] returns it with the five path codes and no styling
    option, and the rectangle's area is the [area] property. *)
Theorem rectangular_coil_patch_unrotated (c : RectangularCoil.t) :
  (1 <= RectangularCoil.nr c)%Z ->
  (1 <= RectangularCoil.nz c)%Z ->
  np.isclose (RectangularCoil.angle c) 0 np.default_rtol np.default_atol
  = true ->
  let r0 := RectangularCoil.r0 c in
  let z0 := RectangularCoil.z0 c in
  let a := IZR (RectangularCoil.nr c) * RectangularCoil.dr c / 2 in
  let b := IZR (RectangularCoil.nz c) * RectangularCoil.dz c / 2 in
  let corners := [(r0 - a, z0 - b); (r0 - a, z0 + b); (r0 + a, z0 + b);
                  (r0 + a, z0 - b); (r0 - a, z0 - b)] in
  RectangularCoil._verts c = Ok corners /\
  RectangularCoil.patch c
  = Ok (patches.mkPathPatch
          (patches.mkPath corners RectangularCoil._codes) []) /\
  (2 * a) * (2 * b) = RectangularCoil.area c.
Proof.
  intros Hr Hz Hclose r0 z0 a b corners.
  pose proof (rectangular_coil_verts c Hr Hz) as Hv. cbv zeta in Hv.
  rewrite Hclose in Hv. fold r0 z0 a b corners in Hv.
  split; [exact Hv|]. split.
  - unfold RectangularCoil.patch. rewrite Hv. reflexivity.
  - unfold a, b, RectangularCoil.area. field.
Qed.

Lemma rectangular_coil_patch_unrotated_witness :
  (1 <= RectangularCoil.nr example_coil)%Z /\
  (1 <= RectangularCoil.nz example_coil)%Z /\
  np.isclose (RectangularCoil.angle example_coil) 0
    np.default_rtol np.default_atol = true /\
  RectangularCoil._verts example_coil
  = Ok [(1 - 2 * 0.1 / 2, 0 - 2 * 0.1 / 2); (1 - 2 * 0.1 / 2, 0 + 2 * 0.1 / 2);
        (1 + 2 * 0.1 / 2, 0 + 2 * 0.1 / 2); (1 + 2 * 0.1 / 2, 0 - 2 * 0.1 / 2);
        (1 - 2 * 0.1 / 2, 0 - 2 * 0.1 / 2)].
Proof.
  assert (Hr : (1 <= RectangularCoil.nr example_coil)%Z) by (simpl; lia).
  assert (Hz : (1 <= RectangularCoil.nz example_coil)%Z) by (simpl; lia).
  assert (Hc : np.isclose (RectangularCoil.angle example_coil) 0
                 np.default_rtol np.default_atol = true).
  { apply isclose_zero. unfold np.default_atol. lra. }
  split; [exact Hr|]. split; [exact Hz|]. split; [exact Hc|].
  apply (rectangular_coil_patch_unrotated example_coil Hr Hz Hc).
Defined.

(** X7.  With [pleiades.transforms.rotate] as modelled (the rotation the
    methods of the classes write out), the boundary polygon of a rotated
    RectangularCoil (angle not close to 0) is the rectangle of the
    unrotated coil turned about the centroid by the stored angle: the
    half-spacing offsets, turned about the origin, fall where the turned
    corners need them. *)
Theorem rectangular_coil_patch_rotated (c : RectangularCoil.t) :
  (1 <= RectangularCoil.nr c)%Z ->
  (1 <= RectangularCoil.nz c)%Z ->
  np.isclose (RectangularCoil.angle c) 0 np.default_rtol np.default_atol
  = false ->
  let r0 := RectangularCoil.r0 c in
  let z0 := RectangularCoil.z0 c in
  let a := IZR (RectangularCoil.nr c) * RectangularCoil.dr c / 2 in
  let b := IZR (RectangularCoil.nz c) * RectangularCoil.dz c / 2 in
  let corners := [(r0 - a, z0 - b); (r0 - a, z0 + b); (r0 + a, z0 + b);
                  (r0 + a, z0 - b); (r0 - a, z0 - b)] in
  RectangularCoil._verts c
  = Ok (map (rotate_about (RectangularCoil.angle c) (r0, z0)) corners) /\
  exists p,
    RectangularCoil.patch c = Ok p /\
    patches.vertices (patches.path p)
    = map (rotate_about (RectangularCoil.angle c) (r0, z0)) corners.
Proof.
  intros Hr Hz Hclose r0 z0 a b corners.
  pose proof (rectangular_coil_verts c Hr Hz) as Hv. cbv zeta in Hv.
  rewrite Hclose in Hv. fold r0 z0 a b corners in Hv.
  split; [exact Hv|].
  unfold RectangularCoil.patch. rewrite Hv. cbn [bind].
  eexists. split; reflexivity.
Qed.

Lemma rectangular_coil_patch_rotated_witness :
  (1 <= RectangularCoil.nr example_coil_turned)%Z /\
  (1 <= RectangularCoil.nz example_coil_turned)%Z /\
  np.isclose (RectangularCoil.angle example_coil_turned) 0
    np.default_rtol np.default_atol = false /\
  exists v, RectangularCoil._verts example_coil_turned = Ok v.
Proof.
  set (c := example_coil_turned).
  assert (Hr : (1 <= RectangularCoil.nr c)%Z) by (simpl; lia).
  assert (Hz : (1 <= RectangularCoil.nz c)%Z) by (simpl; lia).
  assert (Hc : np.isclose (RectangularCoil.angle c) 0
                 np.default_rtol np.default_atol = false).
  { unfold np.isclose, c, example_coil_turned.
    cbn [RectangularCoil.angle RectangularCoil._angle
      RectangularCoil.set_angle cv.flag_greens_on_set].
    destruct (Rle_dec _ _) as [Hle|]; [|reflexivity].
    exfalso. rewrite Rminus_0_r, Rabs_R0 in Hle.
    rewrite Rabs_pos_eq in Hle by lra.
    unfold np.default_atol, np.default_rtol in Hle. lra. }
  split; [exact Hr|]. split; [exact Hz|]. split; [exact Hc|].
  eexists. apply (rectangular_coil_patch_rotated c Hr Hz Hc).
Defined.

Lemma sheets_item_lo (lo hi : R -> point) (zs : list R) (k : nat) :
  (k < length zs)%nat ->
  np.item (map lo zs ++ map hi zs) (Z.of_nat k) = Ok (lo (nth k zs 0)).
Proof.
  intros Hk. apply item_nat.
  rewrite nth_error_app1 by now rewrite length_map.
  rewrite nth_error_map, (nth_error_nth' zs 0 Hk). reflexivity.
Qed.

Lemma sheets_item_hi (lo hi : R -> point) (zs : list R) (k : nat) :
  (k < length zs)%nat ->
  np.item (map lo zs ++ map hi zs) (Z.of_nat (length zs + k))
  = Ok (hi (nth k zs 0)).
Proof.
  intros Hk. apply item_nat.
  rewrite nth_error_app2 by (rewrite length_map; lia).
  rewrite length_map. replace (length zs + k - length zs)%nat with k by lia.
  rewrite nth_error_map, (nth_error_nth' zs 0 Hk). reflexivity.
Qed.

(** X8.  The boundary polygon of an unrotated MagnetRing ([mu_hat] within
    [cv._ATOL] of 0) with an even number of weights, at least four: the
    rectangle of sides [width] and [height] centred on the centroid, from
    the lower left corner round to it again; with a styling dictionary
    [patch] returns it with the five path codes and that dictionary.
    With two weights the polygon collapses onto the lower side.  With no
    weight at all [_verts] raises IndexError. *)
Theorem magnet_ring_patch_unrotated (_ATOL : R) (m : MagnetRing.t) :
  let n := MagnetRing.npts m in
  let r0 := MagnetRing.r0 m in
  let z0 := MagnetRing.z0 m in
  let hw := MagnetRing.width m / 2 in
  let hh := MagnetRing.height m / 2 in
  let corners := [(r0 - hw, z0 + - hh); (r0 - hw, z0 + hh);
                  (r0 + hw, z0 + hh); (r0 + hw, z0 + - hh);
                  (r0 - hw, z0 + - hh)] in
  (Z.even n = true -> (4 <= n)%Z ->
   np.isclose (MagnetRing.mu_hat m) 0 0 _ATOL = true ->
   MagnetRing._verts _ATOL m = Ok corners /\
   forall kw,
     FilamentSet.patch_kw (FilamentSet.MR m) = Some kw ->
     MagnetRing.patch _ATOL m
     = Ok (patches.mkPathPatch
             (patches.mkPath corners MagnetRing._codes) kw)) /\
  (n = 2%Z -> np.isclose (MagnetRing.mu_hat m) 0 0 _ATOL = true ->
   MagnetRing._verts _ATOL m
   = Ok [(r0 - hw, z0 + - hh); (r0 - hw, z0 + - hh); (r0 + hw, z0 + - hh);
         (r0 + hw, z0 + - hh); (r0 - hw, z0 + - hh)]) /\
  (n = 0%Z -> MagnetRing._verts _ATOL m = Raise IndexError).
Proof.
  intros n r0 z0 hw hh corners.
  split; [|split].
  - intros He Hn Hclose.
    destruct (magnet_ring_rz_pts_even _ATOL m He)
      as (zs & Lz & Sz & _ & E).
    fold n r0 z0 hw hh in Lz, Sz, E.
    pose proof (even_half n He) as H2.
    assert (Hh : (2 <= n / 2)%Z) by lia.
    destruct (Sz Hh) as (_ & Hfirst & Hlast & _).
    unfold len in Lz.
    assert (Lz' : length zs = Z.to_nat (n / 2)) by lia.
    assert (Hv : MagnetRing._verts _ATOL m = Ok corners).
    { unfold MagnetRing._verts. fold n. rewrite E, Hclose.
      cbn [bind np.index_rows np.take_rows].
      set (lo := fun z : R => (r0 - hw, z0 + z)).
      set (hi := fun z : R => (r0 + hw, z0 + z)).
      replace 0%Z with (Z.of_nat 0) by reflexivity.
      replace (n / 2 - 1)%Z with (Z.of_nat (length zs - 1)) by lia.
      replace (n - 1)%Z with (Z.of_nat (length zs + (length zs - 1))) by lia.
      replace (n / 2)%Z with (Z.of_nat (length zs + 0)) by lia.
      rewrite !sheets_item_lo, !sheets_item_hi by lia.
      cbn [bind]. rewrite Lz', Hfirst, Hlast. reflexivity. }
    split; [exact Hv|].
    intros kw Hkw. unfold FilamentSet.patch_kw in Hkw. cbn in Hkw.
    unfold MagnetRing.patch. rewrite Hv. cbn [bind].
    unfold patches.new_Path. cbn [length MagnetRing._codes Nat.eqb bind].
    rewrite Hkw. reflexivity.
  - intros H2 Hclose.
    assert (He : Z.even n = true) by (rewrite H2; reflexivity).
    destruct (magnet_ring_rz_pts_even _ATOL m He)
      as (zs & _ & _ & Z1 & E).
    fold n r0 z0 hw hh in Z1, E.
    rewrite H2 in Z1. rewrite (Z1 eq_refl) in E.
    unfold MagnetRing._verts. fold n. rewrite E, Hclose, H2.
    reflexivity.
  - intros H0.
    assert (He : Z.even n = true) by (rewrite H0; reflexivity).
    destruct (magnet_ring_rz_pts_even _ATOL m He)
      as (zs & Lz & _ & _ & E).
    fold n r0 z0 hw hh in Lz, E.
    rewrite H0 in Lz. unfold len in Lz. cbn in Lz.
    destruct zs; [|discriminate Lz].
    unfold MagnetRing._verts. fold n. rewrite E.
    cbn [map app]. unfold transforms.rotate_rows.
    destruct (np.isclose _ _ _ _); cbn [map bind np.index_rows np.take_rows];
      rewrite item_empty; reflexivity.
Qed.

Lemma magnet_ring_patch_unrotated_witness :
  Z.even (MagnetRing.npts example_magnet) = true /\
  (4 <= MagnetRing.npts example_magnet)%Z /\
  np.isclose (MagnetRing.mu_hat example_magnet) 0 0 0 = true /\
  MagnetRing._verts 0 example_magnet
  = Ok [(1 - 0.02 / 2, 0 + - (0.08 / 2)); (1 - 0.02 / 2, 0 + 0.08 / 2);
        (1 + 0.02 / 2, 0 + 0.08 / 2); (1 + 0.02 / 2, 0 + - (0.08 / 2));
        (1 - 0.02 / 2, 0 + - (0.08 / 2))].
Proof.
  assert (He : Z.even (MagnetRing.npts example_magnet) = true)
    by reflexivity.
  assert (Hn : (4 <= MagnetRing.npts example_magnet)%Z)
    by (change (MagnetRing.npts example_magnet) with 16%Z; lia).
  assert (Hc : np.isclose (MagnetRing.mu_hat example_magnet) 0 0 0 = true)
    by (apply isclose_zero; lra).
  split; [exact He|]. split; [exact Hn|]. split; [exact Hc|].
  apply (proj1 (magnet_ring_patch_unrotated 0 example_magnet) He Hn Hc).
Defined.

(** ** The combined array [rzw] *)

Lemma broadcast_to_length {A : Type} (l x : list A) (k : nat) :
  np.broadcast_to l k = Ok x -> length x = k.
Proof.
  unfold np.broadcast_to. destruct (Nat.eqb_spec (length l) k) as [Hk|Hk].
  - intros E. injection E as <-. exact Hk.
  - destruct l as [|a [|b tl]]; try discriminate.
    intros E. injection E as <-. apply repeat_length.
Qed.

Lemma broadcast_to_single {A : Type} (a : A) (k : nat) :
  np.broadcast_to [a] k = Ok (repeat a k).
Proof.
  unfold np.broadcast_to. cbn [length].
  destruct (Nat.eqb_spec 1 k) as [<-|]; reflexivity.
Qed.

Lemma combine_repeat_r {A B : Type} (l : list A) (b : B) :
  combine l (repeat b (length l)) = map (fun x => (x, b)) l.
Proof. induction l as [|x tl IH]; [reflexivity|]. simpl. now rewrite IH. Qed.

Lemma magnet_sheets_length (npts : Z) (width height : R) (l : list point) :
  (0 <= npts)%Z ->
  magnet_sheets npts width height = Ok l -> length l = Z.to_nat npts.
Proof.
  intros Hn. unfold magnet_sheets.
  destruct (np.ones (npts / 2)) as [ones|e]; [|discriminate]. cbn [bind].
  destruct (np.linspace _ _ _) as [zspace|e]; [|discriminate]. cbn [bind].
  destruct (np.broadcast_to (map Ropp _) _) as [r_lo|e] eqn:E1;
    [|discriminate].
  cbn [bind].
  destruct (np.broadcast_to (map _ ones) _) as [r_hi|e] eqn:E2;
    [|discriminate].
  cbn [bind].
  destruct (np.broadcast_to zspace (Nat.min _ _)) as [z_lo|e] eqn:E3;
    [|discriminate].
  cbn [bind].
  destruct (np.broadcast_to zspace (_ - _)) as [z_hi|e] eqn:E4;
    [|discriminate].
  cbn [bind]. intros E. injection E as <-.
  apply broadcast_to_length in E1, E2, E3, E4.
  unfold point. rewrite length_combine, !length_app, E1, E2, E3, E4.
  assert (Hh : (npts / 2 <= npts)%Z).
  { apply Z.div_le_upper_bound; lia. }
  lia.
Qed.

(** Whenever [rz_pts] is an N x 2 array, N is [npts]. *)
Lemma rz_pts_rows_npts (_ATOL : R) (self : FilamentSet.t)
  (rows : list point) :
  FilamentSet.rz_pts _ATOL self = Ok (ArrN2 rows) ->
  len rows = FilamentSet.npts self.
Proof.
  destruct self as [s|c|m]; cbn [FilamentSet.rz_pts FilamentSet.npts].
  - unfold ArbitraryPoints.rz_pts. intros E. injection E as <-. reflexivity.
  - intros E. destruct (rectangular_coil_rz_pts_inv c E) as [Hr Hz].
    rewrite (rectangular_coil_rz_pts_placed c Hr Hz) in E.
    injection E as <-. unfold len. rewrite length_map.
    apply grid_length; lia.
  - rewrite magnet_ring_rz_pts_placed.
    destruct (magnet_sheets _ _ _) as [l|e] eqn:El; [|discriminate].
    cbn [bind]. intros E. injection E as <-.
    unfold len. rewrite length_map.
    rewrite (magnet_sheets_length _ _ (Zle_0_nat _) El).
    unfold MagnetRing.npts. now rewrite Nat2Z.id.
Qed.

(** X9.  On an instance whose [rz_pts] is an N x 2 array: when there are
    [npts] weights, [rzw] pairs the filament of each position with the
    weight of the same position and has [npts] rows; a single weight is
    broadcast, without an error, to every filament; any other number of
    weights makes [rzw] raise ValueError. *)
Theorem rzw_cases (_ATOL : R) (self : FilamentSet.t) (rows : list point) :
  FilamentSet.rz_pts _ATOL self = Ok (ArrN2 rows) ->
  (len (FilamentSet.weights self) = FilamentSet.npts self ->
   FilamentSet.rzw _ATOL self = Ok (combine rows (FilamentSet.weights self)) /\
   len (combine rows (FilamentSet.weights self)) = FilamentSet.npts self) /\
  (forall w,
      FilamentSet.weights self = [w] ->
      FilamentSet.rzw _ATOL self = Ok (map (fun p => (p, w)) rows)) /\
  (len (FilamentSet.weights self) <> FilamentSet.npts self ->
   len (FilamentSet.weights self) <> 1%Z ->
   FilamentSet.rzw _ATOL self = Raise ValueError).
Proof.
  intros E. pose proof (rz_pts_rows_npts _ATOL self E) as Hn.
  unfold len in *.
  assert (Hrows : np.broadcast_to rows (Z.to_nat (FilamentSet.npts self))
                  = Ok rows) by (apply broadcast_to_same; lia).
  assert (Hstart : FilamentSet.rzw _ATOL self
                   = w <- np.broadcast_to (FilamentSet.weights self)
                            (Z.to_nat (FilamentSet.npts self)) ;;
                     Ok (combine rows w)).
  { unfold FilamentSet.rzw.
    destruct (Z.ltb_spec (FilamentSet.npts self) 0); [lia|].
    rewrite E. cbn [bind]. rewrite Hrows. reflexivity. }
  rewrite Hstart. split; [|split].
  - intros Hw. rewrite broadcast_to_same by lia. cbn [bind].
    split; [reflexivity|].
    unfold point. rewrite length_combine. unfold point in Hn. lia.
  - intros w Hw. rewrite Hw, broadcast_to_single. cbn [bind].
    rewrite <- Hn, Nat2Z.id, combine_repeat_r. reflexivity.
  - intros Hw H1. rewrite broadcast_to_fail by lia. reflexivity.
Qed.

Lemma rzw_cases_witness :
  FilamentSet.rz_pts 0 (FilamentSet.AP example_points)
  = Ok (ArrN2 [(1, 0); (2, 0)]) /\
  FilamentSet.rzw 0 (FilamentSet.AP example_points)
  = Ok [(1, 0, 1); (2, 0, 1)].
Proof.
  split; [reflexivity|].
  apply (proj1 (rzw_cases 0 (FilamentSet.AP example_points)
                  (rows := [(1, 0); (2, 0)]) eq_refl)).
  reflexivity.
Defined.

(** ** Markers *)

Lemma current_set_current (self : FilamentSet.t) (I : R) :
  FilamentSet.current (FilamentSet.set_current self I) = I /\
  FilamentSet.weights (FilamentSet.set_current self I)
  = FilamentSet.weights self.
Proof. destruct self; split; reflexivity. Qed.

Lemma marker_opposite (A x : R) :
  (let y := if Rlt_dec (Rabs (- x)) A then 0 else - x in
   if Req_dec_T y 0 then EmptyString
   else if Rlt_dec 0 y then "x"%string else "o"%string)
  = swap_marker
      (let y := if Rlt_dec (Rabs x) A then 0 else x in
       if Req_dec_T y 0 then EmptyString
       else if Rlt_dec 0 y then "x"%string else "o"%string).
Proof.
  cbv zeta. rewrite Rabs_Ropp.
  destruct (Rlt_dec (Rabs x) A).
  - destruct (Req_dec_T 0 0); [reflexivity|lra].
  - destruct (Req_dec_T (- x) 0), (Req_dec_T x 0); try lra;
      [reflexivity|].
    destruct (Rlt_dec 0 (- x)), (Rlt_dec 0 x); try lra; reflexivity.
Qed.

Lemma markers_elementwise (_ATOL : R) (ck : scalar_kind)
  (wk : sequence_kind) (self : FilamentSet.t) :
  (ck, wk) <> (PyFloat, PyList) ->
  FilamentSet._markers _ATOL ck wk self
  = Ok (map (fun w =>
               let y := if Rlt_dec (Rabs (FilamentSet.current self * w)) _ATOL
                        then 0 else FilamentSet.current self * w in
               if Req_dec_T y 0 then EmptyString
               else if Rlt_dec 0 y then "x"%string else "o"%string)
            (FilamentSet.weights self)).
Proof.
  intros Hk. unfold FilamentSet._markers.
  destruct ck, wk; try (exfalso; apply Hk; reflexivity);
    cbn [scalar_times bind]; now rewrite !map_map.
Qed.



(** ** Plotting *)

Lemma magnet_ring_patch_none (_ATOL : R) (m : MagnetRing.t) :
  CurrentFilamentSet.patch_kw (MagnetRing.base m) = None ->
  raises (MagnetRing.patch _ATOL m).
Proof.
  intros Hkw. unfold MagnetRing.patch, raises.
  destruct (MagnetRing._verts _ATOL m) as [v|e]; cbn [bind]; [|eauto].
  destruct (patches.new_Path v MagnetRing._codes) as [p|e]; cbn [bind];
    [|eauto].
  rewrite Hkw. cbn [patches.unpack_kwargs bind]. eauto.
Qed.

Lemma rzw_aligned (_ATOL : R) (self : FilamentSet.t) (rows : list point) :
  FilamentSet.rz_pts _ATOL self = Ok (ArrN2 rows) ->
  len (FilamentSet.weights self) = FilamentSet.npts self ->
  FilamentSet.rzw _ATOL self = Ok (combine rows (FilamentSet.weights self)) /\
  length rows = length (FilamentSet.weights self).
Proof.
  intros E Hw. pose proof (rz_pts_rows_npts _ATOL self E) as Hn.
  unfold len in *. split; [|lia].
  unfold FilamentSet.rzw.
  destruct (Z.ltb_spec (FilamentSet.npts self) 0); [lia|].
  rewrite E. cbn [bind].
  rewrite !broadcast_to_same by lia. reflexivity.
Qed.

Section Plot.
Variable _ATOL : R.
Variable Axes : Type.
Variable add_patch : Axes -> option patches.PathPatch -> Axes * result unit.
Variable ax_plot : Axes -> R -> R -> string -> kwargs -> Axes * result unit.

Lemma plot_rows_succeeds (markers : list string) (kw : kwargs) :
  (forall ax r z marker, snd (ax_plot ax r z marker kw) = Ok tt) ->
  forall (rows : list (R * R * R)) (i : nat) (ax : Axes),
    (i + length rows = length markers)%nat ->
    snd (FilamentSet.plot_rows ax_plot ax markers kw i rows) = Ok tt.
Proof.
  intros Hplot rows. induction rows as [|[[r z] w] tl IH]; intros i ax Hi.
  - reflexivity.
  - cbn [FilamentSet.plot_rows]. cbn [length] in Hi.
    destruct (nth_error markers i) as [marker|] eqn:Em.
    2:{ apply nth_error_None in Em. lia. }
    rewrite (item_nat _ _ Em).
    pose proof (Hplot ax r z marker) as Hp.
    destruct (ax_plot ax r z marker kw) as [ax' [u|e]]; cbn [snd] in Hp.
    + apply IH. lia.
    + discriminate Hp.
Qed.


End Plot.



(** ** What [simplify] raises *)

Lemma simplify_by_rz_pts (_ATOL : R) (self : FilamentSet.t) :
  snd (FilamentSet.simplify _ATOL self)
  = match FilamentSet.rz_pts _ATOL self with
    | Ok (ArrN2 _) => Raise NotImplementedError
    | Ok Arr1_empty => Raise TypeError
    | Raise e => Raise e
    end.
Proof.
  unfold FilamentSet.simplify. cbn [snd].
  destruct (FilamentSet.rz_pts _ATOL self) as [[|rows]|e]; reflexivity.
Qed.

(** X13.  Which error [simplify] raises, by the state of the instance.  On
    a RectangularCoil: NotImplementedError when both filament counts are
    at least 1, ValueError when one is negative, TypeError when none is
    negative, one is zero and the angle is close to 0.  On a MagnetRing:
    NotImplementedError with an even number of weights or with three,
    ValueError with any other odd number.  On an ArbitraryPoints, whose
    points are an N x 2 array: NotImplementedError. *)
Theorem simplify_errors (_ATOL : R) :
  (forall s : ArbitraryPoints.t,
      snd (FilamentSet.simplify _ATOL (FilamentSet.AP s))
      = Raise NotImplementedError) /\
  (forall c : RectangularCoil.t,
      let nr := RectangularCoil.nr c in
      let nz := RectangularCoil.nz c in
      ((1 <= nr)%Z -> (1 <= nz)%Z ->
       snd (FilamentSet.simplify _ATOL (FilamentSet.RC c))
       = Raise NotImplementedError) /\
      ((nr < 0)%Z \/ (nz < 0)%Z ->
       snd (FilamentSet.simplify _ATOL (FilamentSet.RC c))
       = Raise ValueError) /\
      ((0 <= nr)%Z -> (0 <= nz)%Z -> (nr = 0 \/ nz = 0)%Z ->
       np.isclose (RectangularCoil.angle c) 0 np.default_rtol np.default_atol
       = true ->
       snd (FilamentSet.simplify _ATOL (FilamentSet.RC c))
       = Raise TypeError)) /\
  (forall m : MagnetRing.t,
      let n := MagnetRing.npts m in
      (Z.even n = true \/ n = 3%Z ->
       snd (FilamentSet.simplify _ATOL (FilamentSet.MR m))
       = Raise NotImplementedError) /\
      (Z.odd n = true -> n <> 3%Z ->
       snd (FilamentSet.simplify _ATOL (FilamentSet.MR m))
       = Raise ValueError)).
Proof.
  split; [|split].
  - intros s. reflexivity.
  - intros c nr nz. split; [|split].
    + intros Hr Hz. rewrite simplify_by_rz_pts. cbn [FilamentSet.rz_pts].
      destruct (rectangular_coil_rz_pts_full c Hr Hz) as (rows & E & _).
      rewrite E. reflexivity.
    + intros Hneg. rewrite simplify_by_rz_pts. cbn [FilamentSet.rz_pts].
      rewrite (rectangular_coil_rz_pts_negative c Hneg). reflexivity.
    + intros Hr Hz H0 Hc. rewrite simplify_by_rz_pts.
      cbn [FilamentSet.rz_pts].
      rewrite (rectangular_coil_rz_pts_zero c Hr Hz H0 Hc). reflexivity.
  - intros m n. split.
    + intros [He|H3]; rewrite simplify_by_rz_pts; cbn [FilamentSet.rz_pts].
      * destruct (magnet_ring_rz_pts_even _ATOL m He) as (zs & _ & _ & _ & E).
        rewrite E. reflexivity.
      * rewrite (magnet_ring_rz_pts_three _ATOL m H3). reflexivity.
    + intros Ho H3. rewrite simplify_by_rz_pts. cbn [FilamentSet.rz_pts].
      rewrite (magnet_ring_rz_pts_odd _ATOL m Ho H3). reflexivity.
Qed.

Lemma simplify_errors_witness :
  (1 <= RectangularCoil.nr example_coil)%Z /\
  (1 <= RectangularCoil.nz example_coil)%Z /\
  snd (FilamentSet.simplify 0 (FilamentSet.RC example_coil))
  = Raise NotImplementedError.
Proof.
  assert (Hr : (1 <= RectangularCoil.nr example_coil)%Z) by (simpl; lia).
  assert (Hz : (1 <= RectangularCoil.nz example_coil)%Z) by (simpl; lia).
  split; [exact Hr|]. split; [exact Hz|].
  apply (proj1 (proj1 (proj2 (simplify_errors 0)) example_coil) Hr Hz).
Defined.

(** ** Current density *)

(** X14.  The current density of a RectangularCoil times its area is its
    total current.  A coil built without weights, with at least one
    filament each way and nonzero spacings, has the current density
    [current / (dr*dz)], whatever the filament counts: each filament
    carries the current over its own cell. *)
Theorem current_density_of_default_coil :
  (forall c : RectangularCoil.t,
      RectangularCoil.area c <> 0 ->
      RectangularCoil.current_density c * RectangularCoil.area c
      = FilamentSet.total_current (FilamentSet.RC c)) /\
  (forall r0 z0 nr nz dr dz angle I kw fu c,
      RectangularCoil.__init__ r0 z0 nr nz dr dz angle I None kw fu = Ok c ->
      (1 <= nr)%Z -> (1 <= nz)%Z -> dr <> 0 -> dz <> 0 ->
      RectangularCoil.current_density c = I / (dr * dz)).
Proof.
  split.
  - intros c Ha. unfold RectangularCoil.current_density.
    unfold FilamentSet.total_current. cbn [FilamentSet.base].
    generalize (CurrentFilamentSet.total_current (RectangularCoil.base c)).
    intros t. field. exact Ha.
  - intros r0 z0 nr nz dr dz angle I kw fu c E Hr Hz Hdr Hdz.
    unfold RectangularCoil.__init__ in E.
    destruct (CurrentFilamentSet.__init__ _ I None kw fu) as [b|e] eqn:Eb;
      [|discriminate].
    cbn [bind] in E. injection E as <-.
    apply ones_total_current in Eb as (_ & _ & Ht).
    unfold RectangularCoil.current_density, RectangularCoil.area.
    cbn [RectangularCoil.base RectangularCoil.nr RectangularCoil.nz
         RectangularCoil.dr RectangularCoil.dz RectangularCoil._nr
         RectangularCoil._nz RectangularCoil._dr RectangularCoil._dz].
    rewrite Ht, mult_IZR.
    assert (IZR nr <> 0) by (apply not_0_IZR; lia).
    assert (IZR nz <> 0) by (apply not_0_IZR; lia).
    field. repeat split; assumption.
Qed.

Lemma current_density_of_default_coil_witness :
  RectangularCoil.__init__ 1 0 2 2 0.1 0.1 0 1 None None false
  = Ok example_coil /\
  RectangularCoil.current_density example_coil = 1 / (0.1 * 0.1).
Proof.
  assert (H : RectangularCoil.__init__ 1 0 2 2 0.1 0.1 0 1 None None false
              = Ok example_coil) by reflexivity.
  split; [exact H|].
  apply (proj2 current_density_of_default_coil _ _ _ _ _ _ _ _ _ _ _ H);
    lia || lra.
Defined.

(** ** Motions move every filament *)

Lemma rotation_zero : rotation 0 = ((1, - 0), (0, 1)).
Proof.
  unfold rotation. replace (PI * 0 / 180) with 0 by lra.
  now rewrite cos_0, sin_0.
Qed.

Lemma place_form (c : point) (theta : R) (close : bool) (q : point) :
  place c (turn_of close theta) q
  = add_pt (matmul q (rotation (if close then 0 else theta))) c.
Proof.
  destruct close; cbn [turn_of place].
  - rewrite rotation_zero. destruct c, q.
    unfold add_pt, matmul. cbn [fst snd]. f_equal; ring.
  - unfold rotate_about. destruct (rotation theta) as [[m11 m12] [m21 m22]].
    destruct c, q. unfold add_pt, sub_pt, matmul. cbn [fst snd].
    f_equal; ring.
Qed.

Lemma rotate_about_placed (a theta : R) (pivot c q : point) :
  rotate_about a pivot (add_pt (matmul q (rotation theta)) c)
  = add_pt (matmul q (rotation (theta + a))) (rotate_about a pivot c).
Proof.
  unfold rotate_about, rotation.
  replace (PI * (theta + a) / 180) with (PI * theta / 180 + PI * a / 180)
    by lra.
  rewrite cos_plus, sin_plus.
  destruct pivot, c, q. unfold add_pt, sub_pt, matmul. cbn [fst snd].
  f_equal; ring.
Qed.

Lemma place_translated (c v : point) (t : option R) (q : point) :
  place (add_pt c v) t q = add_pt (place c t q) v.
Proof.
  destruct t as [theta|]; cbn [place].
  - unfold rotate_about. destruct (rotation theta) as [[m11 m12] [m21 m22]].
    destruct c, v, q. unfold add_pt, sub_pt, matmul. cbn [fst snd].
    f_equal; ring.
  - destruct c, v, q. unfold add_pt. cbn [fst snd]. f_equal; ring.
Qed.

Lemma place_rotated (a theta : R) (pivot c q : point) (close close' : bool) :
  (close = true -> theta = 0) ->
  (close' = true -> theta + a = 0) ->
  place (rotate_about a pivot c) (turn_of close' (theta + a)) q
  = rotate_about a pivot (place c (turn_of close theta) q).
Proof.
  intros Hc Hc'. rewrite !place_form, rotate_about_placed.
  assert (E : (if close' then 0 else theta + a)
               = (if close then 0 else theta) + a).
  { destruct close, close'.
    - pose proof (Hc eq_refl). pose proof (Hc' eq_refl). lra.
    - pose proof (Hc eq_refl). lra.
    - pose proof (Hc' eq_refl). lra.
    - reflexivity. }
  now rewrite E.
Qed.

(** X15.  With [pleiades.transforms.rotate] as modelled, the motions of a
    RectangularCoil and of a MagnetRing, which only move the centroid and
    add to the stored angle, move every filament of [rz_pts] rigidly:
    [translate(v)] shifts each one by [v], and [rotate(a, pivot)] turns
    each one about the pivot by [a], provided the stored angle is used as
    it is before and after, that is, it is exactly 0 whenever it tests
    close to 0. *)
Theorem motions_move_filaments (_ATOL : R) :
  (forall (c : RectangularCoil.t) rows,
      RectangularCoil.rz_pts c = Ok (ArrN2 rows) ->
      (forall v,
          RectangularCoil.rz_pts (RectangularCoil.translate c v)
          = Ok (ArrN2 (map (fun p => add_pt p v) rows))) /\
      (forall a pivot,
          (np.isclose (RectangularCoil.angle c) 0
             np.default_rtol np.default_atol = true ->
           RectangularCoil.angle c = 0) ->
          (np.isclose (RectangularCoil.angle c + a) 0
             np.default_rtol np.default_atol = true ->
           RectangularCoil.angle c + a = 0) ->
          RectangularCoil.rz_pts (RectangularCoil.rotate c a pivot)
          = Ok (ArrN2 (map (rotate_about a pivot) rows)))) /\
  (forall (m : MagnetRing.t) rows,
      MagnetRing.rz_pts _ATOL m = Ok (ArrN2 rows) ->
      (forall v,
          MagnetRing.rz_pts _ATOL (MagnetRing.translate m v)
          = Ok (ArrN2 (map (fun p => add_pt p v) rows))) /\
      (forall a pivot,
          (np.isclose (MagnetRing.mu_hat m) 0 0 _ATOL = true ->
           MagnetRing.mu_hat m = 0) ->
          (np.isclose (MagnetRing.mu_hat m + a) 0 0 _ATOL = true ->
           MagnetRing.mu_hat m + a = 0) ->
          MagnetRing.rz_pts _ATOL (MagnetRing.rotate m a pivot)
          = Ok (ArrN2 (map (rotate_about a pivot) rows)))).
Proof.
  split.
  - intros c rows E.
    destruct (rectangular_coil_rz_pts_inv c E) as [Hr Hz].
    rewrite (rectangular_coil_rz_pts_placed c Hr Hz) in E.
    injection E as <-. split.
    + intros v.
      rewrite (rectangular_coil_rz_pts_placed
                 (RectangularCoil.translate c v) Hr Hz).
      rewrite map_map. do 2 f_equal. apply map_ext. intros q.
      apply (@place_translated (RectangularCoil.centroid c) v).
    + intros a pivot Hc Hc'.
      rewrite (rectangular_coil_rz_pts_placed
                 (RectangularCoil.rotate c a pivot) Hr Hz).
      rewrite map_map. do 2 f_equal. apply map_ext. intros q.
      apply (@place_rotated a _ pivot (RectangularCoil.centroid c) q _ _ Hc Hc').
  - intros m rows E. rewrite magnet_ring_rz_pts_placed in E.
    destruct (magnet_sheets (MagnetRing.npts m) (MagnetRing.width m)
                (MagnetRing.height m)) as [l|e] eqn:El; [|discriminate].
    cbn [bind] in E. injection E as <-. split.
    + intros v. rewrite magnet_ring_rz_pts_placed.
      change (magnet_sheets (MagnetRing.npts (MagnetRing.translate m v))
                (MagnetRing.width (MagnetRing.translate m v))
                (MagnetRing.height (MagnetRing.translate m v)))
        with (magnet_sheets (MagnetRing.npts m) (MagnetRing.width m)
                (MagnetRing.height m)).
      rewrite El. cbn [bind].
      rewrite map_map. do 2 f_equal. apply map_ext. intros q.
      apply (@place_translated (MagnetRing.centroid m) v).
    + intros a pivot Hc Hc'. rewrite magnet_ring_rz_pts_placed.
      change (magnet_sheets (MagnetRing.npts (MagnetRing.rotate m a pivot))
                (MagnetRing.width (MagnetRing.rotate m a pivot))
                (MagnetRing.height (MagnetRing.rotate m a pivot)))
        with (magnet_sheets (MagnetRing.npts m) (MagnetRing.width m)
                (MagnetRing.height m)).
      rewrite El. cbn [bind].
      rewrite map_map. do 2 f_equal. apply map_ext. intros q.
      apply (@place_rotated a _ pivot (MagnetRing.centroid m) q _ _ Hc Hc').
Qed.

Lemma motions_move_filaments_witness :
  RectangularCoil.rz_pts example_coil
  = Ok (ArrN2 [(0.95, -0.05); (0.95, 0.05); (1.05, -0.05); (1.05, 0.05)]) /\
  RectangularCoil.rz_pts (RectangularCoil.translate example_coil (1, 2))
  = Ok (ArrN2 (map (fun p => add_pt p (1, 2))
                 [(0.95, -0.05); (0.95, 0.05); (1.05, -0.05); (1.05, 0.05)])) /\
  RectangularCoil.rz_pts (RectangularCoil.rotate example_coil 90 (0, 0))
  = Ok (ArrN2 (map (rotate_about 90 (0, 0))
                 [(0.95, -0.05); (0.95, 0.05); (1.05, -0.05); (1.05, 0.05)])).
Proof.
  split; [exact example_coil_rz_pts|]. split.
  - exact (proj1 (proj1 (motions_move_filaments 0) example_coil _
                    example_coil_rz_pts) (1, 2)).
  - refine (proj2 (proj1 (motions_move_filaments 0) example_coil _
                     example_coil_rz_pts) 90 (0, 0) _ _).
    + intros _. reflexivity.
    + intros H. exfalso. unfold np.isclose in H.
      cbn [RectangularCoil.angle RectangularCoil._angle example_coil] in H.
      destruct (Rle_dec _ _) as [Hle|]; [|discriminate].
      rewrite Rminus_0_r, Rabs_R0 in Hle.
      rewrite Rabs_pos_eq in Hle by lra.
      unfold np.default_atol, np.default_rtol in Hle. lra.
Defined.
